(** * KubeProvisioner: the Ec2Instance reconciler

    A shallow embedding of the controller of the Ec2Instance custom resource
    ([Reconcile]) and of the EC2 helpers it calls ([checkEC2InstanceExists],
    [createEc2Instance], [deleteEc2Instance], [helpers.DerefString]).

    The Kubernetes API server and the EC2 API are the environment.  Their
    answers are the fields of a record [Env]; the objects kept by the API
    server are a finite map that the client calls read and write; every call
    that leaves the process is recorded in a trace of [Event]s.  A Go panic
    (nil dereference, index out of range) and [os.Exit] are outcomes of their
    own, next to a normal return.  Logging is left out, except for the
    arguments a log call evaluates, since evaluating them can panic. *)

From Stdlib Require Import ZArith List.
From stdpp Require Import base gmap strings list.
Import ListNotations.

Open Scope string_scope.
Open Scope list_scope.

(** ** Go errors *)

(** An error value: one made by a client library, a Kubernetes status error
    with its reason and its HTTP code, or
    [fmt.Errorf(prefix + ": %w", wrapped)]. *)
Inductive error : Type :=
| ClientError (message : string)
| StatusError (reason : string) (code : Z) (message : string)
| Errorf (prefix : string) (wrapped : error).

(** [err.Error()] *)
Fixpoint Error (e : error) : string :=
  match e with
  | ClientError m => m
  | StatusError _ _ m => m
  | Errorf p w => p +:+ ": " +:+ Error w
  end.

(** [reasonAndCodeForError] of k8s.io/apimachinery: the reason and the code
    of the status error, looked up through wrapping; an error that is no
    status error has the unknown reason (the empty string) and the code 0. *)
Fixpoint reasonAndCodeForError (e : error) : string * Z :=
  match e with
  | ClientError _ => (EmptyString, 0%Z)
  | StatusError r c _ => (r, c)
  | Errorf _ w => reasonAndCodeForError w
  end.

(** [errors.IsNotFound] of k8s.io/apimachinery: the reason is NotFound, or
    the reason is none of the known ones and the code is 404.  [known] is
    the table [knownReasons] of that package. *)
Definition IsNotFound (known : list string) (e : error) : bool :=
  let (reason, code) := reasonAndCodeForError e in
  if String.eqb reason "NotFound" then true
  else if negb (existsb (String.eqb reason) known) && Z.eqb code 404 then true
  else false.

(** [strings.Contains] *)
Fixpoint Contains (s substr : string) : bool :=
  if String.prefix substr s then true
  else match s with
       | EmptyString => false
       | String _ s' => Contains s' substr
       end.

(** ** utils/helpers *)

Module helpers.

(** [DerefString]: a [*string] is an [option string]. *)
Definition DerefString (s : option string) : string :=
  match s with
  | Some v => v
  | None => "<nil>"
  end.

End helpers.

(** ** The custom resource (package computev1) *)

(** Modelled from the spec: the declaration of the spec type the controller
    compiles against is not among the sources (the one that is has [AmiID],
    [SSHKey], [SubNet] and no region); the fields are the ones the controller
    reads ([Spec.Region], [Spec.AMIId], [Spec.InstanceType], [Spec.KeyPair],
    [Spec.Subnet]). *)
Module Ec2InstanceSpec.
Record t : Type := Build {
  Region : string;
  AMIId : string;
  InstanceType : string;
  KeyPair : string;
  Subnet : string
}.
End Ec2InstanceSpec.

(** Modelled from the spec: the declaration of the status type the controller
    compiles against is not among the sources (the one that is has only
    [Phase], [InstanceID] and [PublicIP]); the six string fields are the
    persisted status layout, and the ones the controller writes. *)
Module Ec2InstanceStatus.
Record t : Type := Build {
  InstanceID : string;
  State : string;
  PublicIP : string;
  PrivateIP : string;
  PublicDNS : string;
  PrivateDNS : string
}.
End Ec2InstanceStatus.

(** Modelled from the spec: [computev1.CreatedInstanceInfo] is not among the
    sources; its fields are the ones [createEc2Instance] fills. *)
Module CreatedInstanceInfo.
Record t : Type := Build {
  InstanceID : string;
  State : string;
  PublicIP : string;
  PrivateIP : string;
  PublicDNS : string;
  PrivateDNS : string
}.
End CreatedInstanceInfo.

(** The resource, with the fields of the embedded [metav1.ObjectMeta] the
    controller uses.  [DeletionTimestamp] is a [*metav1.Time]; a time is the
    offset from Go's zero instant. *)
Module Ec2Instance.
Record t : Type := Build {
  Name : string;
  DeletionTimestamp : option Z;
  Finalizers : list string;
  Spec : Ec2InstanceSpec.t;
  Status : Ec2InstanceStatus.t
}.
End Ec2Instance.

(** [IsZero] of a pointer to [metav1.Time]: a nil pointer is zero. *)
Definition IsZero (t : option Z) : bool :=
  match t with
  | None => true
  | Some v => Z.eqb v 0
  end.

(** [controllerutil.RemoveFinalizer]: every occurrence goes. *)
Definition RemoveFinalizer (o : Ec2Instance.t) (finalizer : string) : Ec2Instance.t :=
  Ec2Instance.Build (Ec2Instance.Name o) (Ec2Instance.DeletionTimestamp o)
    (List.filter (fun f => negb (String.eqb f finalizer)) (Ec2Instance.Finalizers o))
    (Ec2Instance.Spec o) (Ec2Instance.Status o).

Definition finalizerName : string := "ec2instance.compute.cloud.com".

(** ** The EC2 SDK types (packages ec2 and ec2types) *)

Module InstanceState.
Record t : Type := Build { Name : string }.
End InstanceState.

(** [ec2types.Instance]: the pointer fields are options.  [ImageId],
    [KeyName] and [InstanceType] are only printed, through [DerefString], and
    are left out. *)
Module Instance.
Record t : Type := Build {
  InstanceId : option string;
  PublicIpAddress : option string;
  PrivateIpAddress : option string;
  PublicDnsName : option string;
  PrivateDnsName : option string;
  State : option InstanceState.t
}.
End Instance.

Module Reservation.
Record t : Type := Build { Instances : list Instance.t }.
End Reservation.

Module Filter.
Record t : Type := Build { Name : option string; Values : list string }.
End Filter.

Module DescribeInstancesInput.
Record t : Type := Build { InstanceIds : list string; Filters : list Filter.t }.
End DescribeInstancesInput.

Module DescribeInstancesOutput.
Record t : Type := Build { Reservations : list Reservation.t }.
End DescribeInstancesOutput.

Module RunInstancesInput.
Record t : Type := Build {
  ImageId : option string;
  InstanceType : string;
  KeyName : option string;
  SubnetId : option string;
  MinCount : option Z;
  MaxCount : option Z
}.
End RunInstancesInput.

Module RunInstancesOutput.
Record t : Type := Build { Instances : list Instance.t }.
End RunInstancesOutput.

Module TerminateInstancesInput.
Record t : Type := Build { InstanceIds : list string }.
End TerminateInstancesInput.

Module InstanceStateChange.
Record t : Type := Build { CurrentState : option InstanceState.t }.
End InstanceStateChange.

Module TerminateInstancesOutput.
Record t : Type := Build { TerminatingInstances : list InstanceStateChange.t }.
End TerminateInstancesOutput.

(** ** The controller's result *)

(** [ctrl.Result]; a duration is a number of nanoseconds. *)
Module Result.
Record t : Type := Build { Requeue : bool; RequeueAfter : Z }.
End Result.

Definition Second : Z := 1000000000.
Definition Minute : Z := 60 * Second.

(** [ctrl.Request]: the key of the object. *)
Module Request.
Record t : Type := Build { NamespacedName : string }.
End Request.

(** ** The environment *)

(** What the outside answers.  An EC2 client is scoped to a region, so the
    EC2 calls take the region first.  The three [_fault] fields are the
    failures of the API server that do not depend on the stored objects
    (conflicts, timeouts, a cancelled context).  [knownReasons] is the table
    of that name of apimachinery's errors package, which [errors.IsNotFound]
    consults. *)
Record Env : Type := {
  knownReasons : list string;
  LoadDefaultConfig : string -> option error;
  RunInstances : string -> RunInstancesInput.t -> RunInstancesOutput.t + error;
  InstanceRunningWaiter_Wait : string -> DescribeInstancesInput.t -> Z -> option error;
  DescribeInstances : string -> DescribeInstancesInput.t -> DescribeInstancesOutput.t + error;
  TerminateInstances : string -> TerminateInstancesInput.t -> TerminateInstancesOutput.t + error;
  InstanceTerminatedWaiter_Wait : string -> DescribeInstancesInput.t -> Z -> option error;
  get_fault : string -> option error;
  update_fault : Ec2Instance.t -> option error;
  status_update_fault : Ec2Instance.t -> option error
}.

(** The calls that leave the process, in the order they are made. *)
Inductive Event : Type :=
| EvGet (key : string)
| EvUpdate (obj : Ec2Instance.t)
| EvStatusUpdate (obj : Ec2Instance.t)
| EvLoadDefaultConfig (region : string)
| EvRunInstances (region : string) (input : RunInstancesInput.t)
| EvWaitRunning (region : string) (input : DescribeInstancesInput.t) (maxWait : Z)
| EvDescribeInstances (region : string) (input : DescribeInstancesInput.t)
| EvTerminateInstances (region : string) (input : TerminateInstancesInput.t)
| EvWaitTerminated (region : string) (input : DescribeInstancesInput.t) (maxWait : Z).

(** ** The monad: objects of the API server, trace, panic and exit *)

Inductive outcome (A : Type) : Type :=
| Ret (a : A)
| Panic (msg : string)
| Exit (code : Z).
Arguments Ret {A} a.
Arguments Panic {A} msg.
Arguments Exit {A} code.

Definition M (A : Type) : Type :=
  gmap string Ec2Instance.t -> outcome A * gmap string Ec2Instance.t * list Event.

Definition ret {A} (a : A) : M A := fun s => (Ret a, s, []).

Definition bind {A B} (m : M A) (f : A -> M B) : M B := fun s =>
  match m s with
  | (Ret a, s1, t1) =>
      match f a s1 with
      | (o, s2, t2) => (o, s2, t1 ++ t2)
      end
  | (Panic msg, s1, t1) => (Panic msg, s1, t1)
  | (Exit c, s1, t1) => (Exit c, s1, t1)
  end.

Declare Scope go_scope.
Delimit Scope go_scope with go.
Notation "x <- m ;; k" := (bind m (fun x => k))
  (at level 100, m at next level, right associativity) : go_scope.
Notation "m ;;; k" := (bind m (fun _ => k))
  (at level 100, right associativity) : go_scope.
Open Scope go_scope.

Definition panic {A} (msg : string) : M A := fun s => (Panic msg, s, []).
Definition os_Exit {A} (code : Z) : M A := fun s => (Exit code, s, []).
Definition emit (e : Event) : M unit := fun s => (Ret tt, s, [e]).

(** [*p] *)
Definition deref {A} (p : option A) : M A :=
  match p with
  | Some v => ret v
  | None => panic "invalid memory address or nil pointer dereference"
  end.

(** [l[0]] *)
Definition index0 {A} (l : list A) : M A :=
  match l with
  | x :: _ => ret x
  | [] => panic "index out of range [0] with length 0"
  end.

(** The three components of a run. *)
Definition result_of {A} (r : outcome A * gmap string Ec2Instance.t * list Event) : outcome A :=
  fst (fst r).
Definition store_of {A} (r : outcome A * gmap string Ec2Instance.t * list Event)
  : gmap string Ec2Instance.t := snd (fst r).
Definition trace_of {A} (r : outcome A * gmap string Ec2Instance.t * list Event) : list Event :=
  snd r.

(** ** The calls to the API server and to EC2 *)

Section Controller.

Variable env : Env.

(** [r.Get]: the stored object, or a not-found status error. *)
Definition Get (key : string) : M (Ec2Instance.t + error) := fun s =>
  match get_fault env key with
  | Some e => (Ret (inr e), s, [EvGet key])
  | None =>
      match s !! key with
      | Some o => (Ret (inl o), s, [EvGet key])
      | None => (Ret (inr (StatusError "NotFound" 404 "not found")), s, [EvGet key])
      end
  end.

(** What the API server keeps after an update of [old] to [new]: an object
    whose deletion timestamp is set is removed once an update leaves it no
    finalizer. *)
Definition storeUpdated (s : gmap string Ec2Instance.t) (old new : Ec2Instance.t)
  : gmap string Ec2Instance.t :=
  match Ec2Instance.DeletionTimestamp old, Ec2Instance.Finalizers new with
  | Some _, [] => delete (Ec2Instance.Name new) s
  | _, _ => <[Ec2Instance.Name new := new]> s
  end.

(** [r.Update]: writes metadata and spec; the resource has a status
    subresource, so the stored status stays.  On success the caller's object
    is overwritten with the one of the response, so the object is returned
    too. *)
Definition Update (o : Ec2Instance.t) : M (Ec2Instance.t * option error) := fun s =>
  match update_fault env o with
  | Some e => (Ret (o, Some e), s, [EvUpdate o])
  | None =>
      match s !! Ec2Instance.Name o with
      | None => (Ret (o, Some (StatusError "NotFound" 404 "not found")), s, [EvUpdate o])
      | Some old =>
          let new := Ec2Instance.Build (Ec2Instance.Name o) (Ec2Instance.DeletionTimestamp o)
                       (Ec2Instance.Finalizers o) (Ec2Instance.Spec o) (Ec2Instance.Status old) in
          (Ret (new, None), storeUpdated s old new, [EvUpdate o])
      end
  end.

(** [r.Status().Update]: writes the status only. *)
Definition StatusUpdate (o : Ec2Instance.t) : M (Ec2Instance.t * option error) := fun s =>
  match status_update_fault env o with
  | Some e => (Ret (o, Some e), s, [EvStatusUpdate o])
  | None =>
      match s !! Ec2Instance.Name o with
      | None => (Ret (o, Some (StatusError "NotFound" 404 "not found")), s, [EvStatusUpdate o])
      | Some old =>
          let new := Ec2Instance.Build (Ec2Instance.Name old) (Ec2Instance.DeletionTimestamp old)
                       (Ec2Instance.Finalizers old) (Ec2Instance.Spec old) (Ec2Instance.Status o) in
          (Ret (new, None), <[Ec2Instance.Name o := new]> s, [EvStatusUpdate o])
      end
  end.

(** [awsClient]: the client of a region; a configuration that does not load
    ends the process. *)
Definition awsClient (region : string) : M string :=
  emit (EvLoadDefaultConfig region) ;;;
  match LoadDefaultConfig env region with
  | Some _ => os_Exit 1
  | None => ret region
  end.

Definition callRunInstances (client : string) (input : RunInstancesInput.t)
  : M (RunInstancesOutput.t + error) :=
  emit (EvRunInstances client input) ;;; ret (RunInstances env client input).

Definition callDescribeInstances (client : string) (input : DescribeInstancesInput.t)
  : M (DescribeInstancesOutput.t + error) :=
  emit (EvDescribeInstances client input) ;;; ret (DescribeInstances env client input).

Definition callTerminateInstances (client : string) (input : TerminateInstancesInput.t)
  : M (TerminateInstancesOutput.t + error) :=
  emit (EvTerminateInstances client input) ;;; ret (TerminateInstances env client input).

Definition waitRunning (client : string) (input : DescribeInstancesInput.t) (maxWait : Z)
  : M (option error) :=
  emit (EvWaitRunning client input maxWait) ;;;
  ret (InstanceRunningWaiter_Wait env client input maxWait).

Definition waitTerminated (client : string) (input : DescribeInstancesInput.t) (maxWait : Z)
  : M (option error) :=
  emit (EvWaitTerminated client input maxWait) ;;;
  ret (InstanceTerminatedWaiter_Wait env client input maxWait).

(** ** internal/controller/aws.go *)

(** The [DescribeInstancesInput] of [checkEC2InstanceExists]: one id, and the
    filter on the running state. *)
Definition runningInput (instanceID : string) : DescribeInstancesInput.t :=
  DescribeInstancesInput.Build [instanceID]
    [Filter.Build (Some "instance-state-name") ["running"]].

(** The [DescribeInstancesInput] of the waiters and of the describe call of
    [createEc2Instance]: one id, no filter. *)
Definition plainInput (instanceID : string) : DescribeInstancesInput.t :=
  DescribeInstancesInput.Build [instanceID] [].

(** The [RunInstancesInput] of [createEc2Instance]: one instance of the
    declared image, type, key pair and subnet. *)
Definition runInputOf (spec : Ec2InstanceSpec.t) : RunInstancesInput.t :=
  RunInstancesInput.Build (Some (Ec2InstanceSpec.AMIId spec))
    (Ec2InstanceSpec.InstanceType spec)
    (Some (Ec2InstanceSpec.KeyPair spec))
    (Some (Ec2InstanceSpec.Subnet spec))
    (Some 1%Z) (Some 1%Z).

(** [checkEC2InstanceExists]: describe the instance, filtered to the running
    state. *)
Definition checkEC2InstanceExists (instanceID : string) (ec2Instance : Ec2Instance.t)
  : M (bool * option Instance.t * option error) :=
  ec2Client <- awsClient (Ec2InstanceSpec.Region (Ec2Instance.Spec ec2Instance)) ;;
  let input := runningInput instanceID in
  r <- callDescribeInstances ec2Client input ;;
  match r with
  | inr err =>
      if Contains (Error err) "InvalidInstanceID.NotFound"
      then ret (false, None, None)
      else ret (false, None, Some err)
  | inl result =>
      match DescribeInstancesOutput.Reservations result with
      | [] => ret (false, None, None)
      | r0 :: _ =>
          i0 <- index0 (Reservation.Instances r0) ;;
          ret (true, Some i0, None)
      end
  end.

(** The [CreatedInstanceInfo] literal at the end of [createEc2Instance]:
    [inst] is the record of the run call, [instance] the one of the describe
    call. *)
Definition projectInstance (inst instance : Instance.t) : M CreatedInstanceInfo.t :=
  id <- deref (Instance.InstanceId inst) ;;
  st <- deref (Instance.State instance) ;;
  ret (CreatedInstanceInfo.Build id (InstanceState.Name st)
         (helpers.DerefString (Instance.PublicIpAddress instance))
         (helpers.DerefString (Instance.PrivateIpAddress instance))
         (helpers.DerefString (Instance.PublicDnsName instance))
         (helpers.DerefString (Instance.PrivateDnsName instance))).

(** [createEc2Instance]: run one instance, wait up to three minutes for it to
    run, describe it and project the record. *)
Definition createEc2Instance (ec2Instance : Ec2Instance.t)
  : M (option CreatedInstanceInfo.t * option error) :=
  let spec := Ec2Instance.Spec ec2Instance in
  ec2Client <- awsClient (Ec2InstanceSpec.Region spec) ;;
  let runInput := runInputOf spec in
  r <- callRunInstances ec2Client runInput ;;
  match r with
  | inr err => ret (None, Some (Errorf "failed to create EC2 instance" err))
  | inl result =>
      match RunInstancesOutput.Instances result with
      | [] => ret (None, None)
      | inst :: _ =>
          (* the log line of the creation reads [*inst.InstanceId] *)
          instanceId <- deref (Instance.InstanceId inst) ;;
          let maxWaitTime := (3 * Minute)%Z in
          werr <- waitRunning ec2Client (plainInput instanceId) maxWaitTime ;;
          match werr with
          | Some err => ret (None, Some (Errorf "failed to wait for instance to be running" err))
          | None =>
              let describeInput := plainInput instanceId in
              d <- callDescribeInstances ec2Client describeInput ;;
              match d with
              | inr err => ret (None, Some (Errorf "failed to describe EC2 instance" err))
              | inl describeResult =>
                  (* the print of the describe result reads
                     [*Reservations[0].Instances[0].PublicDnsName] and
                     [Reservations[0].Instances[0].State.Name] *)
                  r0 <- index0 (DescribeInstancesOutput.Reservations describeResult) ;;
                  i0 <- index0 (Reservation.Instances r0) ;;
                  _ <- deref (Instance.PublicDnsName i0) ;;
                  _ <- deref (Instance.State i0) ;;
                  let instance := i0 in
                  createdInstanceInfo <- projectInstance inst instance ;;
                  ret (Some createdInstanceInfo, None)
              end
          end
      end
  end.

(** [deleteEc2Instance]: terminate the instance of the status and wait up to
    five minutes for the termination. *)
Definition deleteEc2Instance (ec2Instance : Ec2Instance.t) : M (bool * option error) :=
  let instanceID := Ec2InstanceStatus.InstanceID (Ec2Instance.Status ec2Instance) in
  ec2Client <- awsClient (Ec2InstanceSpec.Region (Ec2Instance.Spec ec2Instance)) ;;
  r <- callTerminateInstances ec2Client (TerminateInstancesInput.Build [instanceID]) ;;
  match r with
  | inr err => ret (false, Some err)
  | inl terminateResult =>
      (* the log line reads [TerminatingInstances[0].CurrentState.Name] *)
      t0 <- index0 (TerminateInstancesOutput.TerminatingInstances terminateResult) ;;
      _ <- deref (InstanceStateChange.CurrentState t0) ;;
      let maxWaitTime := (5 * Minute)%Z in
      let waitParams := plainInput instanceID in
      werr <- waitTerminated ec2Client waitParams maxWaitTime ;;
      match werr with
      | Some err => ret (false, Some err)
      | None => ret (true, None)
      end
  end.

(** ** The reconciler *)

(** Assignments to the fields of [ec2Instance.Status] and to
    [ec2Instance.Finalizers]. *)
Definition set_Status (o : Ec2Instance.t) (st : Ec2InstanceStatus.t) : Ec2Instance.t :=
  Ec2Instance.Build (Ec2Instance.Name o) (Ec2Instance.DeletionTimestamp o)
    (Ec2Instance.Finalizers o) (Ec2Instance.Spec o) st.

Definition set_Finalizers (o : Ec2Instance.t) (f : list string) : Ec2Instance.t :=
  Ec2Instance.Build (Ec2Instance.Name o) (Ec2Instance.DeletionTimestamp o)
    f (Ec2Instance.Spec o) (Ec2Instance.Status o).

Definition set_State_PublicIP (st : Ec2InstanceStatus.t) (state publicIP : string)
  : Ec2InstanceStatus.t :=
  Ec2InstanceStatus.Build (Ec2InstanceStatus.InstanceID st) state publicIP
    (Ec2InstanceStatus.PrivateIP st) (Ec2InstanceStatus.PublicDNS st)
    (Ec2InstanceStatus.PrivateDNS st).

Definition emptyStatus : Ec2InstanceStatus.t := Ec2InstanceStatus.Build EmptyString EmptyString EmptyString EmptyString EmptyString EmptyString.

Definition statusOfInfo (i : CreatedInstanceInfo.t) : Ec2InstanceStatus.t :=
  Ec2InstanceStatus.Build (CreatedInstanceInfo.InstanceID i) (CreatedInstanceInfo.State i)
    (CreatedInstanceInfo.PublicIP i) (CreatedInstanceInfo.PrivateIP i)
    (CreatedInstanceInfo.PublicDNS i) (CreatedInstanceInfo.PrivateDNS i).

Definition noRequeue : Result.t := Result.Build false 0.
Definition requeueNow : Result.t := Result.Build true 0.
Definition requeueAfter (d : Z) : Result.t := Result.Build false d.

(** The deletion branch of [Reconcile]. *)
Definition reconcileDelete (ec2Instance : Ec2Instance.t) : M (Result.t * option error) :=
  d <- deleteEc2Instance ec2Instance ;;
  match snd d with
  | Some err => ret (requeueNow, Some err)
  | None =>
      let ec2Instance := RemoveFinalizer ec2Instance finalizerName in
      u <- Update ec2Instance ;;
      match snd u with
      | Some err => ret (requeueNow, Some err)
      | None => ret (noRequeue, None)
      end
  end.

(** The branch of [Reconcile] for a status that has an instance id. *)
Definition reconcileVerify (ec2Instance : Ec2Instance.t) : M (Result.t * option error) :=
  let status := Ec2Instance.Status ec2Instance in
  c <- checkEC2InstanceExists (Ec2InstanceStatus.InstanceID status) ec2Instance ;;
  let instanceExist := fst (fst c) in
  let instanceState := snd (fst c) in
  match snd c with
  | Some _ =>
      let ec2Instance := set_Status ec2Instance emptyStatus in
      u <- StatusUpdate ec2Instance ;;
      ret (requeueNow, snd u)
  | None =>
      if negb instanceExist then
        let ec2Instance := set_Status ec2Instance (set_State_PublicIP status "Unknown" EmptyString) in
        _ <- StatusUpdate ec2Instance ;;
        ret (noRequeue, None)
      else if instanceExist && String.eqb (Ec2InstanceStatus.State status) "Unknown" then
        i <- deref instanceState ;;
        st <- deref (Instance.State i) ;;
        publicIP <- deref (Instance.PublicIpAddress i) ;;
        let ec2Instance :=
          set_Status ec2Instance (set_State_PublicIP status (InstanceState.Name st) publicIP) in
        _ <- StatusUpdate ec2Instance ;;
        ret (noRequeue, None)
      else ret (noRequeue, None)
  end.

(** The creation branch of [Reconcile]. *)
Definition reconcileCreate (ec2Instance : Ec2Instance.t) : M (Result.t * option error) :=
  let ec2Instance :=
    set_Finalizers ec2Instance (Ec2Instance.Finalizers ec2Instance ++ [finalizerName]) in
  u <- Update ec2Instance ;;
  match snd u with
  | Some err => ret (requeueNow, Some err)
  | None =>
      let ec2Instance := fst u in
      c <- createEc2Instance ec2Instance ;;
      match snd c with
      | Some err => ret (noRequeue, Some err)
      | None =>
          createdInstanceInfo <- deref (fst c) ;;
          let ec2Instance := set_Status ec2Instance (statusOfInfo createdInstanceInfo) in
          su <- StatusUpdate ec2Instance ;;
          match snd su with
          | Some err => ret (noRequeue, Some err)
          | None => ret (requeueAfter (1 * Second), None)
          end
      end
  end.

(** [Reconcile] *)
Definition Reconcile (req : Request.t) : M (Result.t * option error) :=
  g <- Get (Request.NamespacedName req) ;;
  match g with
  | inr err =>
      if IsNotFound (knownReasons env) err then ret (noRequeue, None)
      else ret (noRequeue, Some err)
  | inl ec2Instance =>
      if negb (IsZero (Ec2Instance.DeletionTimestamp ec2Instance)) then
        reconcileDelete ec2Instance
      else if negb (String.eqb (Ec2InstanceStatus.InstanceID (Ec2Instance.Status ec2Instance)) EmptyString)
      then reconcileVerify ec2Instance
      else reconcileCreate ec2Instance
  end.

End Controller.

(** ** Sample worlds *)

Definition sampleKey : string := "default/vm".
Definition sampleReq : Request.t := Request.Build sampleKey.
Definition sampleSpec : Ec2InstanceSpec.t :=
  Ec2InstanceSpec.Build "us-east-1" "ami-1" "t3.micro" "key-1" "subnet-1".

(** A resource that was just declared, one whose status names an instance,
    and one that is being deleted. *)
Definition newObj : Ec2Instance.t :=
  Ec2Instance.Build sampleKey None [] sampleSpec emptyStatus.
Definition liveObj (state : string) : Ec2Instance.t :=
  Ec2Instance.Build sampleKey None [finalizerName] sampleSpec
    (Ec2InstanceStatus.Build "i-999" state "1.2.3.4" "10.0.0.5" "ec2-1-2-3-4" "ip-10-0-0-5").
Definition dyingObj : Ec2Instance.t :=
  Ec2Instance.Build sampleKey (Some 5%Z) [finalizerName] sampleSpec
    (Ec2InstanceStatus.Build "i-999" "running" "1.2.3.4" "10.0.0.5" "ec2-1-2-3-4" "ip-10-0-0-5").

Definition storeOf (o : Ec2Instance.t) : gmap string Ec2Instance.t := {[ sampleKey := o ]}.

Definition running : InstanceState.t := InstanceState.Build "running".

(** The record [{id: i-123, state: running, publicIP: 1.2.3.4, privateIP:
    10.0.0.5}] with no DNS name. *)
Definition record123 : Instance.t :=
  Instance.Build (Some "i-123") (Some "1.2.3.4") (Some "10.0.0.5") None None (Some running).

(** A running instance in a private subnet: no public address. *)
Definition recordPrivate : Instance.t :=
  Instance.Build (Some "i-999") None (Some "10.0.0.5") (Some EmptyString) (Some "ip-10-0-0-5")
    (Some running).

Definition describes (i : Instance.t) : DescribeInstancesOutput.t + error :=
  inl (DescribeInstancesOutput.Build [Reservation.Build [i]]).

Definition notFoundError : error :=
  ClientError "api error InvalidInstanceID.NotFound: The instance ID 'i-999' does not exist".
Definition timeoutError : error := ClientError "RequestError: send request failed".
Definition conflictError : error :=
  StatusError "Conflict" 409 "the object has been modified".

Definition sampleKnownReasons : list string :=
  ["Unauthorized"; "Forbidden"; "NotFound"; "AlreadyExists"; "Conflict"; "Gone"; "Invalid";
   "ServerTimeout"; "Timeout"; "TooManyRequests"; "BadRequest"; "MethodNotAllowed";
   "NotAcceptable"; "RequestEntityTooLarge"; "UnsupportedMediaType"; "InternalError";
   "Expired"; "ServiceUnavailable"].

(** An environment whose answers do not depend on the arguments of the
    calls. *)
Definition sampleEnv (run : RunInstancesOutput.t + error)
    (describe : DescribeInstancesOutput.t + error)
    (terminate : TerminateInstancesOutput.t + error)
    (update : option error) : Env :=
  {| knownReasons := sampleKnownReasons;
     LoadDefaultConfig := fun _ => None;
     RunInstances := fun _ _ => run;
     InstanceRunningWaiter_Wait := fun _ _ _ => None;
     DescribeInstances := fun _ _ => describe;
     TerminateInstances := fun _ _ => terminate;
     InstanceTerminatedWaiter_Wait := fun _ _ _ => None;
     get_fault := fun _ => None;
     update_fault := fun _ => update;
     status_update_fault := fun _ => None |}.

Definition runs (i : Instance.t) : RunInstancesOutput.t + error :=
  inl (RunInstancesOutput.Build [i]).
Definition runsNothing : RunInstancesOutput.t + error := inl (RunInstancesOutput.Build []).
Definition terminates : TerminateInstancesOutput.t + error :=
  inl (TerminateInstancesOutput.Build
         [InstanceStateChange.Build (Some (InstanceState.Build "shutting-down"))]).

(** A running instance with every field present. *)
Definition recordFull : Instance.t :=
  Instance.Build (Some "i-abc") (Some "1.2.3.4") (Some "10.0.0.5") (Some "ec2-1-2-3-4")
    (Some "ip-10-0-0-5") (Some running).

Definition envNotFound : Env := sampleEnv runsNothing (inr notFoundError) terminates None.
Definition envQueryFails : Env := sampleEnv runsNothing (inr timeoutError) terminates None.
Definition envFound : Env := sampleEnv runsNothing (describes recordFull) terminates None.
Definition envPrivate : Env := sampleEnv runsNothing (describes recordPrivate) terminates None.
Definition envCreates : Env := sampleEnv (runs recordFull) (describes recordFull) terminates None.
Definition envCreates123 : Env :=
  sampleEnv (runs record123) (describes record123) terminates None.
Definition envCreatesPrivate : Env :=
  sampleEnv (runs recordPrivate) (describes recordPrivate) terminates None.
Definition envRunFails : Env :=
  sampleEnv (inr timeoutError) (describes recordFull) terminates None.
Definition envRunsNothing : Env := sampleEnv runsNothing (describes recordFull) terminates None.
Definition envTerminateFails : Env :=
  sampleEnv runsNothing (describes recordFull) (inr timeoutError) None.

(** The status [i-999] with a describe call that reports not found, and with
    one that fails otherwise. *)
Definition notFoundPass := Reconcile envNotFound sampleReq (storeOf (liveObj "running")).
Definition queryFailsPass := Reconcile envQueryFails sampleReq (storeOf (liveObj "running")).

(** A creation whose describe call returns [record123], and a refresh of an
    "Unknown" status from a record without a public address. *)
Definition create123Pass := Reconcile envCreates123 sampleReq (storeOf newObj).
Definition refreshPrivatePass := Reconcile envPrivate sampleReq (storeOf (liveObj "Unknown")).

(** A creation that is retried: the finalizer is there, the status is empty. *)
Definition retryObj : Ec2Instance.t :=
  Ec2Instance.Build sampleKey None [finalizerName] sampleSpec emptyStatus.

(** A second resource of the same API server. *)
Definition otherKey : string := "default/other".
Definition otherObj : Ec2Instance.t :=
  Ec2Instance.Build otherKey None [] sampleSpec emptyStatus.
Definition storeTwo : gmap string Ec2Instance.t := <[otherKey := otherObj]> (storeOf newObj).

(** An environment whose status writes fail, and one whose configuration
    does not load. *)
Definition withStatusFault (e : error) (env : Env) : Env :=
  {| knownReasons := knownReasons env;
     LoadDefaultConfig := LoadDefaultConfig env;
     RunInstances := RunInstances env;
     InstanceRunningWaiter_Wait := InstanceRunningWaiter_Wait env;
     DescribeInstances := DescribeInstances env;
     TerminateInstances := TerminateInstances env;
     InstanceTerminatedWaiter_Wait := InstanceTerminatedWaiter_Wait env;
     get_fault := get_fault env;
     update_fault := update_fault env;
     status_update_fault := fun _ => Some e |}.

Definition withConfigFault (e : error) (env : Env) : Env :=
  {| knownReasons := knownReasons env;
     LoadDefaultConfig := fun _ => Some e;
     RunInstances := RunInstances env;
     InstanceRunningWaiter_Wait := InstanceRunningWaiter_Wait env;
     DescribeInstances := DescribeInstances env;
     TerminateInstances := TerminateInstances env;
     InstanceTerminatedWaiter_Wait := InstanceTerminatedWaiter_Wait env;
     get_fault := get_fault env;
     update_fault := update_fault env;
     status_update_fault := status_update_fault env |}.

Definition configError : error := ClientError "failed to load configuration".
Definition envStatusFails : Env := withStatusFault conflictError envCreates.
Definition envNoConfig : Env := withConfigFault configError envFound.
Definition envConflict : Env :=
  sampleEnv runsNothing (describes recordFull) terminates (Some conflictError).
Definition envTerminatesNothing : Env :=
  sampleEnv runsNothing (describes recordFull) (inl (TerminateInstancesOutput.Build [])) None.
Definition envNoInstances : Env :=
  sampleEnv runsNothing (inl (DescribeInstancesOutput.Build [Reservation.Build []]))
    terminates None.

(** What [createEc2Instance] returns for [recordFull]. *)
Definition infoFull : CreatedInstanceInfo.t :=
  CreatedInstanceInfo.Build "i-abc" "running" "1.2.3.4" "10.0.0.5" "ec2-1-2-3-4" "ip-10-0-0-5".

(** The record [{id: i-123, state: running, publicIP: 1.2.3.4, privateIP:
    10.0.0.5}] with a public DNS name and no private one. *)
Definition record123dns : Instance.t :=
  Instance.Build (Some "i-123") (Some "1.2.3.4") (Some "10.0.0.5")
    (Some "ec2-1-2-3-4.compute-1.amazonaws.com") None (Some running).
Definition envCreates123dns : Env :=
  sampleEnv (runs record123dns) (describes record123dns) terminates None.

(** An environment whose load of the resource fails. *)
Definition withGetFault (e : error) (env : Env) : Env :=
  {| knownReasons := knownReasons env;
     LoadDefaultConfig := LoadDefaultConfig env;
     RunInstances := RunInstances env;
     InstanceRunningWaiter_Wait := InstanceRunningWaiter_Wait env;
     DescribeInstances := DescribeInstances env;
     TerminateInstances := TerminateInstances env;
     InstanceTerminatedWaiter_Wait := InstanceTerminatedWaiter_Wait env;
     get_fault := fun _ => Some e;
     update_fault := update_fault env;
     status_update_fault := status_update_fault env |}.

(** A status error with code 404 and no reason. *)
Definition goneError : error := StatusError EmptyString 404 "gone".

(** ** Proof tools *)

Ltac unfold_aws :=
  unfold deleteEc2Instance, createEc2Instance, checkEC2InstanceExists, projectInstance,
    awsClient, callRunInstances, callDescribeInstances, callTerminateInstances,
    waitRunning, waitTerminated in *.

Ltac unfold_monad :=
  unfold deref, index0, bind, ret, emit, panic, os_Exit, result_of, store_of, trace_of in *.

(** Case analysis on the innermost scrutinee of the goal. *)
Ltac step :=
  match goal with
  | |- context [match ?x with _ => _ end] =>
      lazymatch x with
      | context [match _ with _ => _ end] => fail
      | _ => destruct x eqn:?
      end
  end.

Ltac steps :=
  repeat (cbn [fst snd app negb andb] in *; step); cbn [fst snd app negb andb] in *.

Ltac not_in_trace :=
  cbn [In app]; intuition (try discriminate; try congruence).

(** * Properties *)

(** ** Runs *)

Lemma result_of_run {A} (o : outcome A) s t : result_of (o, s, t) = o.
Proof. reflexivity. Qed.

Lemma store_of_run {A} (o : outcome A) s t : store_of (o, s, t) = s.
Proof. reflexivity. Qed.

Lemma trace_of_run {A} (o : outcome A) s t : trace_of (o, s, t) = t.
Proof. reflexivity. Qed.

Lemma run_ret {A} (a : A) s : ret a s = (Ret a, s, []).
Proof. reflexivity. Qed.

Ltac run :=
  repeat (rewrite ?result_of_run, ?store_of_run, ?trace_of_run, ?run_ret;
          cbn [fst snd negb andb app]).

Lemma run_bind {A B} (m : M A) (f : A -> M B) s :
  bind m f s =
  match result_of (m s) with
  | Ret a =>
      (result_of (f a (store_of (m s))), store_of (f a (store_of (m s))),
       trace_of (m s) ++ trace_of (f a (store_of (m s))))
  | Panic msg => (Panic msg, store_of (m s), trace_of (m s))
  | Exit c => (Exit c, store_of (m s), trace_of (m s))
  end.
Proof.
  unfold bind, result_of, store_of, trace_of.
  destruct (m s) as [[[a|msg|c] s1] t1]; cbn; try reflexivity.
  destruct (f a s1) as [[o s2] t2]; reflexivity.
Qed.

Lemma not_in_split (x : Event) l pre post : ~ In x l -> l <> pre ++ x :: post.
Proof. intros Hn E. apply Hn. rewrite E. apply in_elt. Qed.

Lemma second_precedes (a b x : Event) rest pre post :
  a :: b :: rest = pre ++ x :: post -> x <> a -> x <> b -> In b pre.
Proof.
  intros E Ha Hb. destruct pre as [|p1 [|p2 pre']]; cbn in E.
  - injection E as E1 _. congruence.
  - injection E as _ E2 _. congruence.
  - injection E as _ E2 _. subst. cbn. auto.
Qed.

Lemma split_at_fourth (a b c x y : Event) rest pre post :
  a :: b :: c :: x :: rest = pre ++ y :: post ->
  y <> a -> y <> b -> y <> c -> ~ In y rest ->
  pre = [a; b; c] /\ y = x /\ post = rest.
Proof.
  intros E Ha Hb Hc Hr.
  destruct pre as [|p1 [|p2 [|p3 [|p4 pre']]]]; cbn in E.
  - injection E as E1 _. congruence.
  - injection E as _ E2 _. congruence.
  - injection E as _ _ E3 _. congruence.
  - injection E as -> -> -> -> ->. auto.
  - injection E as _ _ _ _ E5. exfalso. apply Hr. rewrite E5. apply in_elt.
Qed.

(** ** The calls *)

(** An update that leaves a finalizer stores the object. *)
Lemma storeUpdated_keeps s old new :
  Ec2Instance.Finalizers new <> [] ->
  storeUpdated s old new = <[Ec2Instance.Name new := new]> s.
Proof.
  intros Hf. unfold storeUpdated.
  destruct (Ec2Instance.DeletionTimestamp old); [|reflexivity].
  destruct (Ec2Instance.Finalizers new); [congruence | reflexivity].
Qed.

(** An update touches no other name. *)
Lemma storeUpdated_other s old new k :
  k <> Ec2Instance.Name new -> storeUpdated s old new !! k = s !! k.
Proof.
  intros Hk. unfold storeUpdated.
  destruct (Ec2Instance.DeletionTimestamp old); [destruct (Ec2Instance.Finalizers new)|].
  - apply lookup_delete_ne. congruence.
  - apply lookup_insert_ne. congruence.
  - apply lookup_insert_ne. congruence.
Qed.

Lemma appended_not_nil {A} (l : list A) (x : A) : l ++ [x] <> [].
Proof. destruct l; discriminate. Qed.

Section Calls.
Variable env : Env.

Lemma Update_trace o s : trace_of (Update env o s) = [EvUpdate o].
Proof. unfold Update, trace_of. steps; reflexivity. Qed.

(** [r.Update] of an object with a finalizer leaves every stored status as it
    is. *)
Lemma Update_status_frame o s k :
  Ec2Instance.Finalizers o <> [] ->
  Ec2Instance.Status <$> (store_of (Update env o s) !! k) = Ec2Instance.Status <$> (s !! k).
Proof.
  intros Hf. unfold Update, store_of. steps; try reflexivity.
  rewrite storeUpdated_keeps by exact Hf. cbn [Ec2Instance.Name].
  destruct (decide (Ec2Instance.Name o = k)) as [<-|Hne].
  - rewrite lookup_insert_eq.
    match goal with H : s !! _ = Some _ |- _ => rewrite H end. reflexivity.
  - rewrite lookup_insert_ne by exact Hne. reflexivity.
Qed.

(** [r.Status().Update] always returns, and is one call. *)
Lemma StatusUpdate_returns o s :
  exists u, result_of (StatusUpdate env o s) = Ret u /\
            trace_of (StatusUpdate env o s) = [EvStatusUpdate o].
Proof. unfold StatusUpdate, result_of, trace_of. steps; eexists; split; reflexivity. Qed.

Lemma checkEC2InstanceExists_store id o s :
  store_of (checkEC2InstanceExists env id o s) = s.
Proof. unfold_aws. unfold_monad. steps; reflexivity. Qed.

Lemma checkEC2InstanceExists_no_write id o s x :
  ~ In (EvUpdate x) (trace_of (checkEC2InstanceExists env id o s)) /\
  ~ In (EvStatusUpdate x) (trace_of (checkEC2InstanceExists env id o s)).
Proof. unfold_aws. unfold_monad. steps; not_in_trace. Qed.

Lemma createEc2Instance_store o s : store_of (createEc2Instance env o s) = s.
Proof. unfold_aws. unfold_monad. steps; reflexivity. Qed.

Lemma createEc2Instance_no_write o s x :
  ~ In (EvStatusUpdate x) (trace_of (createEc2Instance env o s)) /\
  ~ In (EvUpdate x) (trace_of (createEc2Instance env o s)).
Proof. unfold_aws. unfold_monad. steps; not_in_trace. Qed.

End Calls.

(** ** One pass over a loaded resource *)

Section Pass.
Variable env : Env.
Variable req : Request.t.
Variable s : gmap string Ec2Instance.t.
Variable obj : Ec2Instance.t.
Hypothesis Hget : get_fault env (Request.NamespacedName req) = None.
Hypothesis Hload : s !! Request.NamespacedName req = Some obj.

(** After the load, [Reconcile] is one of its three branches. *)
Lemma Reconcile_loaded :
  Reconcile env req s =
  let k := if negb (IsZero (Ec2Instance.DeletionTimestamp obj)) then reconcileDelete env obj
           else if negb (String.eqb (Ec2InstanceStatus.InstanceID (Ec2Instance.Status obj)) EmptyString)
                then reconcileVerify env obj
                else reconcileCreate env obj in
  (result_of (k s), store_of (k s), EvGet (Request.NamespacedName req) :: trace_of (k s)).
Proof.
  unfold Reconcile, bind, Get. rewrite Hget, Hload. cbn zeta.
  match goal with |- context [?f s] => destruct (f s) as [[o s'] t] end.
  reflexivity.
Qed.

(** C3, as amended.  For a resource that is not being deleted and whose
    status names an instance, when the describe call reports the instance as
    not found (an error that mentions InvalidInstanceID.NotFound, or no
    reservation), the pass sets the state to "Unknown" and the public IP to
    the empty string, keeps the instance id and the other fields, makes one
    status write and asks for no retry. *)
Theorem not_found_marks_unknown :
  IsZero (Ec2Instance.DeletionTimestamp obj) = true ->
  Ec2InstanceStatus.InstanceID (Ec2Instance.Status obj) <> EmptyString ->
  let key := Request.NamespacedName req in
  let region := Ec2InstanceSpec.Region (Ec2Instance.Spec obj) in
  let id := Ec2InstanceStatus.InstanceID (Ec2Instance.Status obj) in
  LoadDefaultConfig env region = None ->
  ((exists e, DescribeInstances env region (runningInput id) = inr e /\
              Contains (Error e) "InvalidInstanceID.NotFound" = true) \/
   (exists out, DescribeInstances env region (runningInput id) = inl out /\
                DescribeInstancesOutput.Reservations out = [])) ->
  let marked := set_Status obj (set_State_PublicIP (Ec2Instance.Status obj) "Unknown" EmptyString) in
  let R := Reconcile env req s in
  result_of R = Ret (noRequeue, None) /\
  trace_of R = [EvGet key; EvLoadDefaultConfig region;
                EvDescribeInstances region (runningInput id); EvStatusUpdate marked] /\
  store_of R = store_of (StatusUpdate env marked s) /\
  (forall o, store_of R !! key = Some o ->
             Ec2InstanceStatus.InstanceID (Ec2Instance.Status o) = id /\
             (Ec2Instance.Status o = Ec2Instance.Status marked \/ o = obj)).
Proof.
  intros Hz Hid key region id Hl Hd marked R. subst R.
  rewrite Reconcile_loaded, Hz. cbn [negb].
  apply String.eqb_neq in Hid. rewrite Hid. cbn [negb].
  assert (Hc : checkEC2InstanceExists env id obj s =
               (Ret (false, None, None), s,
                [EvLoadDefaultConfig region; EvDescribeInstances region (runningInput id)])).
  { unfold_aws. unfold_monad. fold region. rewrite Hl. cbn [fst snd app].
    destruct Hd as [(e & -> & ->)|(out & -> & ->)]; reflexivity. }
  unfold reconcileVerify. fold id marked.
  rewrite run_bind, Hc. run. rewrite run_bind.
  destruct (StatusUpdate_returns env marked s) as (u & Hu & Ht). rewrite Hu, Ht. run.
  split; [reflexivity|]. split; [reflexivity|]. split; [reflexivity|].
  intros o. unfold StatusUpdate, store_of. fold key in Hload.
  steps; intros Ho; try (rewrite Hload in Ho; injection Ho as <-; auto; fail).
  cbn [Ec2Instance.Name set_Status marked] in *.
  destruct (decide (Ec2Instance.Name obj = key)) as [E|Hne].
  - rewrite E, lookup_insert_eq in Ho. injection Ho as <-. cbn. auto.
  - rewrite lookup_insert_ne in Ho by exact Hne. rewrite Hload in Ho. injection Ho as <-. auto.
Qed.

(** C4.  On a pass over a resource that is not being deleted, a call of
    RunInstances is made only if the loaded status has no instance id; when
    the status has one, the pass makes no such call. *)
Theorem single_create :
  IsZero (Ec2Instance.DeletionTimestamp obj) = true ->
  (forall region input,
      In (EvRunInstances region input) (trace_of (Reconcile env req s)) ->
      Ec2InstanceStatus.InstanceID (Ec2Instance.Status obj) = EmptyString) /\
  (Ec2InstanceStatus.InstanceID (Ec2Instance.Status obj) <> EmptyString ->
   forall region input, ~ In (EvRunInstances region input) (trace_of (Reconcile env req s))).
Proof.
  intros Hz.
  assert (Hv : Ec2InstanceStatus.InstanceID (Ec2Instance.Status obj) <> EmptyString ->
               forall region input,
                 ~ In (EvRunInstances region input) (trace_of (Reconcile env req s))).
  { intros Hid region input. rewrite Reconcile_loaded, Hz. cbn [negb].
    apply String.eqb_neq in Hid. rewrite Hid. cbn [negb trace_of snd].
    unfold reconcileVerify, StatusUpdate. unfold_aws. unfold_monad.
    steps; not_in_trace. }
  split; [| exact Hv].
  intros region input Hin.
  destruct (String.eqb (Ec2InstanceStatus.InstanceID (Ec2Instance.Status obj)) EmptyString) eqn:E.
  - apply String.eqb_eq in E. exact E.
  - apply String.eqb_neq in E. exfalso. exact (Hv E region input Hin).
Qed.

(** C5.  On a pass over a resource that is being deleted: when the
    termination fails, the pass returns that error with a retry request,
    leaves the stored objects (and so the finalizer) as they are and makes no
    update; an update is made only after the terminate call and the wait for
    the termination have both succeeded, and it is the one that removes the
    finalizer. *)
Theorem deletion_safety :
  IsZero (Ec2Instance.DeletionTimestamp obj) = false ->
  let key := Request.NamespacedName req in
  let region := Ec2InstanceSpec.Region (Ec2Instance.Spec obj) in
  let id := Ec2InstanceStatus.InstanceID (Ec2Instance.Status obj) in
  let R := Reconcile env req s in
  (forall b e,
      result_of (deleteEc2Instance env obj s) = Ret (b, Some e) ->
      result_of R = Ret (requeueNow, Some e) /\ store_of R = s /\
      forall o, ~ In (EvUpdate o) (trace_of R)) /\
  (forall o,
      In (EvUpdate o) (trace_of R) ->
      result_of (deleteEc2Instance env obj s) = Ret (true, None) /\
      InstanceTerminatedWaiter_Wait env region (plainInput id) (5 * Minute) = None /\
      o = RemoveFinalizer obj finalizerName /\
      trace_of R = [EvGet key; EvLoadDefaultConfig region;
                    EvTerminateInstances region (TerminateInstancesInput.Build [id]);
                    EvWaitTerminated region (plainInput id) (5 * Minute);
                    EvUpdate o]) /\
  (store_of R <> s -> result_of (deleteEc2Instance env obj s) = Ret (true, None)).
Proof.
  intros Hz key region id R. subst R.
  rewrite Reconcile_loaded, Hz. cbn [negb].
  unfold reconcileDelete, Update. unfold_aws. unfold_monad.
  fold region id key.
  steps; repeat split; intros; try discriminate; try congruence;
    try (cbn [In] in *; intuition (try discriminate; try congruence)).
Qed.

(** C6.  On a creation pass (not being deleted, no instance id in the
    status): every call of RunInstances comes after the update that adds the
    finalizer, that update succeeded and the stored object has the finalizer;
    the calls before RunInstances are exactly the load, that update and the
    load of the configuration, no update follows, and the object stored at
    the end of the pass has the finalizer appended.  When that update fails,
    the pass returns its error with a retry request and makes no call of
    RunInstances. *)
Theorem finalizer_before_create :
  IsZero (Ec2Instance.DeletionTimestamp obj) = true ->
  Ec2InstanceStatus.InstanceID (Ec2Instance.Status obj) = EmptyString ->
  let obj' := set_Finalizers obj (Ec2Instance.Finalizers obj ++ [finalizerName]) in
  let R := Reconcile env req s in
  (forall pre region input post,
      trace_of R = pre ++ EvRunInstances region input :: post ->
      In (EvUpdate obj') pre /\
      exists stored,
        result_of (Update env obj' s) = Ret (stored, None) /\
        store_of (Update env obj' s) !! Ec2Instance.Name obj' = Some stored /\
        In finalizerName (Ec2Instance.Finalizers stored) /\
        pre = [EvGet (Request.NamespacedName req); EvUpdate obj'; EvLoadDefaultConfig region] /\
        (forall o, ~ In (EvUpdate o) post) /\
        exists final,
          store_of R !! Ec2Instance.Name obj' = Some final /\
          Ec2Instance.Finalizers final = Ec2Instance.Finalizers obj ++ [finalizerName]) /\
  (forall o e,
      result_of (Update env obj' s) = Ret (o, Some e) ->
      result_of R = Ret (requeueNow, Some e) /\ store_of R = s /\
      forall region input, ~ In (EvRunInstances region input) (trace_of R)).
Proof.
  intros Hz Hid obj' R. subst R.
  rewrite Reconcile_loaded, Hz, Hid. cbn [negb String.eqb].
  unfold reconcileCreate. fold obj'.
  unfold Update, StatusUpdate. unfold_aws. unfold_monad.
  split.
  - intros pre region input post.
    steps; intros E;
      try (exfalso; revert E; apply not_in_split; not_in_trace; fail);
      (apply split_at_fourth in E; [| discriminate | discriminate | discriminate | not_in_trace]);
      destruct E as (-> & Hy & ->); injection Hy as -> ->;
      rewrite ?storeUpdated_keeps in * by (cbn; apply appended_not_nil);
      cbn [Ec2Instance.Name Ec2Instance.Finalizers] in *;
      (split; [cbn; auto|]);
      eexists; (split; [reflexivity|]); (split; [apply lookup_insert_eq|]);
      (split; [cbn; apply in_or_app; right; left; reflexivity|]);
      (split; [reflexivity|]); (split; [intros; not_in_trace|]).
    all: try (eexists; split; [apply lookup_insert_eq | reflexivity]).
    cbn [Ec2Instance.Name set_Status] in *.
    match goal with
    | H : <[_ := _]> _ !! _ = Some _ |- _ => rewrite lookup_insert_eq in H; injection H as <-
    end.
    eexists. split; [apply lookup_insert_eq | reflexivity].
  - intros o e.
    steps; intros E; try discriminate; injection E as -> ->;
      (split; [reflexivity|]); (split; [reflexivity|]); intros; not_in_trace.
Qed.

(** C7, as amended.  On a verification pass, when the describe call fails
    with an error that does not mention InvalidInstanceID.NotFound, the pass
    clears the six status fields, makes one status write and asks for a
    retry; the error it returns is the one of the status write. *)
Theorem query_failure_clears_status :
  IsZero (Ec2Instance.DeletionTimestamp obj) = true ->
  Ec2InstanceStatus.InstanceID (Ec2Instance.Status obj) <> EmptyString ->
  let key := Request.NamespacedName req in
  let region := Ec2InstanceSpec.Region (Ec2Instance.Spec obj) in
  let id := Ec2InstanceStatus.InstanceID (Ec2Instance.Status obj) in
  LoadDefaultConfig env region = None ->
  forall e,
    DescribeInstances env region (runningInput id) = inr e ->
    Contains (Error e) "InvalidInstanceID.NotFound" = false ->
    let cleared := set_Status obj emptyStatus in
    let R := Reconcile env req s in
    exists u,
      result_of (StatusUpdate env cleared s) = Ret u /\
      result_of R = Ret (requeueNow, snd u) /\
      trace_of R = [EvGet key; EvLoadDefaultConfig region;
                    EvDescribeInstances region (runningInput id); EvStatusUpdate cleared] /\
      store_of R = store_of (StatusUpdate env cleared s) /\
      (snd u = None ->
       Ec2Instance.Status <$> (store_of R !! Ec2Instance.Name obj) = Some emptyStatus).
Proof.
  intros Hz Hid key region id Hl e Hd Hc cleared R. subst R.
  rewrite Reconcile_loaded, Hz. cbn [negb].
  apply String.eqb_neq in Hid. rewrite Hid. cbn [negb].
  assert (Hk : checkEC2InstanceExists env id obj s =
               (Ret (false, None, Some e), s,
                [EvLoadDefaultConfig region; EvDescribeInstances region (runningInput id)])).
  { unfold_aws. unfold_monad. fold region. rewrite Hl. cbn [fst snd app].
    rewrite Hd, Hc. reflexivity. }
  unfold reconcileVerify. fold id cleared.
  rewrite run_bind, Hk. run. rewrite run_bind.
  destruct (StatusUpdate_returns env cleared s) as (u & Hu & Ht). rewrite Hu, Ht. run.
  exists u. repeat (split; [reflexivity|]).
  revert Hu. unfold StatusUpdate, result_of, store_of.
  steps; intros Hu; injection Hu as <-; cbn [snd]; intros Hn; try discriminate.
  change (Ec2Instance.Name cleared) with (Ec2Instance.Name obj).
  rewrite lookup_insert_eq. reflexivity.
Qed.

(** C8.  On a creation pass whose finalizer update succeeded, when
    [createEc2Instance] returns an error, the pass returns that same error,
    makes no status write, and every stored status is what it was. *)
Theorem create_error_surfaced :
  IsZero (Ec2Instance.DeletionTimestamp obj) = true ->
  Ec2InstanceStatus.InstanceID (Ec2Instance.Status obj) = EmptyString ->
  let obj' := set_Finalizers obj (Ec2Instance.Finalizers obj ++ [finalizerName]) in
  let R := Reconcile env req s in
  forall stored info e,
    result_of (Update env obj' s) = Ret (stored, None) ->
    result_of (createEc2Instance env stored (store_of (Update env obj' s))) = Ret (info, Some e) ->
    result_of R = Ret (noRequeue, Some e) /\
    (forall o, ~ In (EvStatusUpdate o) (trace_of R)) /\
    (forall k, Ec2Instance.Status <$> (store_of R !! k) = Ec2Instance.Status <$> (s !! k)).
Proof.
  intros Hz Hid obj' R stored info e HU HC. subst R.
  rewrite Reconcile_loaded, Hz, Hid. cbn [negb String.eqb].
  unfold reconcileCreate. fold obj'.
  rewrite run_bind, HU. cbn [fst snd].
  rewrite run_bind, HC. run.
  split; [reflexivity|]. split.
  - intros o [E|Hin]; [discriminate|].
    apply in_app_or in Hin. destruct Hin as [Hin|Hin].
    + rewrite Update_trace in Hin. revert Hin. not_in_trace.
    + rewrite app_nil_r in Hin.
      exact (proj1 (createEc2Instance_no_write _ _ _ o) Hin).
  - intros k. rewrite createEc2Instance_store. apply Update_status_frame.
    apply appended_not_nil.
Qed.

(** C9.  On a verification pass, when the instance is found running and the
    state of the status is not "Unknown", the pass returns without a retry
    request, the stored objects are what they were, and no update and no
    status write is made. *)
Theorem steady_state_noop :
  IsZero (Ec2Instance.DeletionTimestamp obj) = true ->
  Ec2InstanceStatus.InstanceID (Ec2Instance.Status obj) <> EmptyString ->
  Ec2InstanceStatus.State (Ec2Instance.Status obj) <> "Unknown" ->
  forall inst,
    result_of (checkEC2InstanceExists env
                 (Ec2InstanceStatus.InstanceID (Ec2Instance.Status obj)) obj s)
      = Ret (true, inst, None) ->
    let R := Reconcile env req s in
    result_of R = Ret (noRequeue, None) /\ store_of R = s /\
    forall o, ~ In (EvUpdate o) (trace_of R) /\ ~ In (EvStatusUpdate o) (trace_of R).
Proof.
  intros Hz Hid Hst inst Hc R. subst R.
  rewrite Reconcile_loaded, Hz. cbn [negb].
  apply String.eqb_neq in Hid, Hst. rewrite Hid. cbn [negb].
  unfold reconcileVerify. rewrite run_bind, Hc, Hst. run.
  split; [reflexivity|]. split; [apply checkEC2InstanceExists_store|].
  intros o. rewrite app_nil_r.
  split; (intros [E|Hin]; [discriminate|]).
  - exact (proj1 (checkEC2InstanceExists_no_write _ _ _ _ o) Hin).
  - exact (proj2 (checkEC2InstanceExists_no_write _ _ _ _ o) Hin).
Qed.

(** C10.  On a creation pass whose finalizer update succeeded, when
    RunInstances succeeds with an empty list of instances,
    [createEc2Instance] returns a nil result with a nil error, and
    [Reconcile] then panics on a nil dereference, after the finalizer was
    stored and RunInstances was called. *)
Theorem empty_run_result_panics :
  IsZero (Ec2Instance.DeletionTimestamp obj) = true ->
  Ec2InstanceStatus.InstanceID (Ec2Instance.Status obj) = EmptyString ->
  Ec2Instance.Name obj = Request.NamespacedName req ->
  let key := Request.NamespacedName req in
  let obj' := set_Finalizers obj (Ec2Instance.Finalizers obj ++ [finalizerName]) in
  let region := Ec2InstanceSpec.Region (Ec2Instance.Spec obj) in
  let input := runInputOf (Ec2Instance.Spec obj) in
  update_fault env obj' = None ->
  LoadDefaultConfig env region = None ->
  forall out,
    RunInstances env region input = inl out ->
    RunInstancesOutput.Instances out = [] ->
    createEc2Instance env obj' (<[key := obj']> s)
      = (Ret (None, None), <[key := obj']> s,
         [EvLoadDefaultConfig region; EvRunInstances region input]) /\
    Reconcile env req s
      = (Panic "invalid memory address or nil pointer dereference", <[key := obj']> s,
         [EvGet key; EvUpdate obj'; EvLoadDefaultConfig region; EvRunInstances region input]).
Proof.
  intros Hz Hid Hn key obj' region input Hu Hl out Hr Hi.
  assert (Hc : forall s1, createEc2Instance env obj' s1
                = (Ret (None, None), s1,
                   [EvLoadDefaultConfig region; EvRunInstances region input])).
  { intros s1. unfold_aws. unfold_monad.
    change (Ec2Instance.Spec obj') with (Ec2Instance.Spec obj).
    fold region input. rewrite Hl. cbn [fst snd app]. rewrite Hr, Hi. reflexivity. }
  split; [apply Hc|].
  rewrite Reconcile_loaded, Hz, Hid. cbn [negb String.eqb].
  unfold reconcileCreate. fold obj'.
  assert (HU : Update env obj' s = (Ret (obj', None), <[key := obj']> s, [EvUpdate obj'])).
  { pose proof Hload as Hs. unfold key. rewrite <- Hn in Hs |- *.
    unfold Update. rewrite Hu.
    change (Ec2Instance.Name obj') with (Ec2Instance.Name obj). rewrite Hs.
    rewrite storeUpdated_keeps by (cbn; apply appended_not_nil).
    reflexivity. }
  rewrite run_bind, HU. run.
  rewrite run_bind, Hc. run.
  reflexivity.
Qed.

End Pass.

(** ** The status projection *)

(** C1, as stated, fails.  With the record that has no DNS name, the pass
    does not store the status the claim gives (it panics before the
    projection, and the stored status stays empty); and with a record
    without a public address, for which the creation succeeds, the stored
    public IP is not the empty string. *)
Lemma status_roundtrip_counterexample :
  ~ (Ec2Instance.Status <$> (store_of create123Pass !! sampleKey)
     = Some (Ec2InstanceStatus.Build "i-123" "running" "1.2.3.4" "10.0.0.5"
               EmptyString EmptyString)) /\
  ~ (exists stored,
        store_of (Reconcile envCreatesPrivate sampleReq (storeOf newObj)) !! sampleKey
        = Some stored /\
        Ec2InstanceStatus.PublicIP (Ec2Instance.Status stored) = EmptyString).
Proof.
  split.
  - intros H. vm_compute in H. discriminate H.
  - intros (stored & Hs & Hp). vm_compute in Hs. injection Hs as <-. discriminate Hp.
Qed.

(** A creation that succeeds stores the projected record and asks for a
    requeue after one second. *)
Example create_pass_succeeds :
  result_of (Reconcile envCreates sampleReq (storeOf newObj))
    = Ret (requeueAfter Second, None) /\
  store_of (Reconcile envCreates sampleReq (storeOf newObj)) !! sampleKey
    = Some (Ec2Instance.Build sampleKey None [finalizerName] sampleSpec
              (Ec2InstanceStatus.Build "i-abc" "running" "1.2.3.4" "10.0.0.5"
                 "ec2-1-2-3-4" "ip-10-0-0-5")).
Proof. split; vm_compute; reflexivity. Qed.

(** A creation in a private subnet stores the string "<nil>" as the public
    address. *)
Example create_pass_stores_nil_marker :
  Ec2Instance.Status <$>
    (store_of (Reconcile envCreatesPrivate sampleReq (storeOf newObj)) !! sampleKey)
  = Some (Ec2InstanceStatus.Build "i-999" "running" "<nil>" "10.0.0.5"
            EmptyString "ip-10-0-0-5").
Proof. vm_compute. reflexivity. Qed.

(** C2 fails on the code.  A creation whose describe call returns a record
    without a public DNS name panics in [createEc2Instance], where the print
    of the describe result dereferences that field; a refresh of an "Unknown"
    status from a record without a public address panics in [Reconcile]. *)
Lemma absent_field_dereferenced :
  result_of (createEc2Instance envCreates123 newObj (storeOf newObj))
    = Panic "invalid memory address or nil pointer dereference" /\
  result_of create123Pass = Panic "invalid memory address or nil pointer dereference" /\
  result_of refreshPrivatePass = Panic "invalid memory address or nil pointer dereference".
Proof. repeat split; vm_compute; reflexivity. Qed.

(** ** Counterexamples to the healing claims *)

(** C3, as stated, fails: with the status [i-999] and a not-found answer, the
    stored status keeps its instance id and no retry is requested. *)
Lemma not_found_counterexample :
  ~ (exists o, store_of notFoundPass !! sampleKey = Some o /\
               Ec2InstanceStatus.InstanceID (Ec2Instance.Status o) = EmptyString) /\
  ~ (exists res err, result_of notFoundPass = Ret (res, err) /\ Result.Requeue res = true).
Proof.
  split.
  - intros (o & Ho & Hid). vm_compute in Ho. injection Ho as <-. discriminate Hid.
  - intros (res & err & Hr & Hq). vm_compute in Hr. injection Hr as <- <-. discriminate Hq.
Qed.

(** C7, as stated, fails: on the same resource, a failure of the describe
    call that is not a not-found and a not-found give different results and
    different stored statuses. *)
Lemma query_failure_counterexample :
  result_of queryFailsPass <> result_of notFoundPass /\
  Ec2Instance.Status <$> (store_of queryFailsPass !! sampleKey)
  <> Ec2Instance.Status <$> (store_of notFoundPass !! sampleKey).
Proof. split; intros E; vm_compute in E; discriminate E. Qed.

(** ** The theorems at sample worlds *)

Lemma not_found_marks_unknown_witness :
  result_of notFoundPass = Ret (noRequeue, None) /\
  store_of notFoundPass
  = store_of (StatusUpdate envNotFound
                (set_Status (liveObj "running")
                   (set_State_PublicIP (Ec2Instance.Status (liveObj "running"))
                      "Unknown" EmptyString))
                (storeOf (liveObj "running"))).
Proof.
  pose proof (not_found_marks_unknown envNotFound sampleReq (storeOf (liveObj "running"))
                (liveObj "running")) as H.
  cbv zeta in H.
  destruct H as (Hr & _ & Hs & _).
  - reflexivity.
  - vm_compute. reflexivity.
  - reflexivity.
  - discriminate.
  - reflexivity.
  - left. exists notFoundError. split; [reflexivity | vm_compute; reflexivity].
  - split; [exact Hr | exact Hs].
Defined.

Lemma single_create_witness :
  In (EvRunInstances "us-east-1" (runInputOf sampleSpec))
     (trace_of (Reconcile envCreates sampleReq (storeOf newObj))) /\
  Ec2InstanceStatus.InstanceID (Ec2Instance.Status newObj) = EmptyString.
Proof.
  assert (Hin : In (EvRunInstances "us-east-1" (runInputOf sampleSpec))
                   (trace_of (Reconcile envCreates sampleReq (storeOf newObj)))).
  { vm_compute. auto. }
  split; [exact Hin|].
  pose proof (single_create envCreates sampleReq (storeOf newObj) newObj) as H.
  destruct H as (Hc & _).
  - reflexivity.
  - vm_compute. reflexivity.
  - reflexivity.
  - exact (Hc _ _ Hin).
Defined.

Lemma deletion_safety_witness :
  result_of (Reconcile envTerminateFails sampleReq (storeOf dyingObj))
    = Ret (requeueNow, Some timeoutError) /\
  store_of (Reconcile envTerminateFails sampleReq (storeOf dyingObj)) = storeOf dyingObj.
Proof.
  pose proof (deletion_safety envTerminateFails sampleReq (storeOf dyingObj) dyingObj) as H.
  cbv zeta in H.
  destruct H as (Hf & _ & _).
  - reflexivity.
  - vm_compute. reflexivity.
  - reflexivity.
  - destruct (Hf false timeoutError) as (Hr & Hs & _).
    + vm_compute. reflexivity.
    + split; assumption.
Defined.

Lemma finalizer_before_create_witness :
  In (EvUpdate (set_Finalizers newObj [finalizerName]))
     (firstn 3 (trace_of (Reconcile envCreates sampleReq (storeOf newObj)))).
Proof.
  pose proof (finalizer_before_create envCreates sampleReq (storeOf newObj) newObj) as H.
  cbv zeta in H.
  destruct H as (Hb & _).
  - reflexivity.
  - vm_compute. reflexivity.
  - reflexivity.
  - reflexivity.
  - destruct (Hb (firstn 3 (trace_of (Reconcile envCreates sampleReq (storeOf newObj))))
                 "us-east-1" (runInputOf sampleSpec)
                 (skipn 4 (trace_of (Reconcile envCreates sampleReq (storeOf newObj)))))
      as (Hin & _).
    + vm_compute. reflexivity.
    + exact Hin.
Defined.

Lemma query_failure_clears_status_witness :
  result_of queryFailsPass = Ret (requeueNow, None) /\
  Ec2Instance.Status <$> (store_of queryFailsPass !! sampleKey) = Some emptyStatus.
Proof.
  pose proof (query_failure_clears_status envQueryFails sampleReq
                (storeOf (liveObj "running")) (liveObj "running")) as H.
  cbv zeta in H.
  destruct (H eq_refl eq_refl eq_refl ltac:(discriminate) eq_refl timeoutError eq_refl eq_refl)
    as (u & Hu & Hr & _ & _ & Hs).
  vm_compute in Hu. injection Hu as <-.
  split; [exact Hr | exact (Hs eq_refl)].
Defined.

Lemma create_error_surfaced_witness :
  result_of (Reconcile envRunFails sampleReq (storeOf newObj))
    = Ret (noRequeue, Some (Errorf "failed to create EC2 instance" timeoutError)) /\
  Ec2Instance.Status <$> (store_of (Reconcile envRunFails sampleReq (storeOf newObj)) !! sampleKey)
  = Some emptyStatus.
Proof.
  pose proof (create_error_surfaced envRunFails sampleReq (storeOf newObj) newObj) as H.
  cbv zeta in H.
  destruct (H eq_refl eq_refl eq_refl eq_refl (set_Finalizers newObj [finalizerName]) None
              (Errorf "failed to create EC2 instance" timeoutError) eq_refl eq_refl)
    as (Hr & _ & Hs).
  split; [exact Hr|]. rewrite Hs. reflexivity.
Defined.

Lemma steady_state_noop_witness :
  result_of (Reconcile envFound sampleReq (storeOf (liveObj "running")))
    = Ret (noRequeue, None) /\
  store_of (Reconcile envFound sampleReq (storeOf (liveObj "running")))
    = storeOf (liveObj "running").
Proof.
  pose proof (steady_state_noop envFound sampleReq (storeOf (liveObj "running"))
                (liveObj "running")) as H.
  cbv zeta in H.
  destruct (H eq_refl eq_refl eq_refl ltac:(discriminate) ltac:(discriminate)
              (Some recordFull) eq_refl)
    as (Hr & Hs & _).
  split; assumption.
Defined.

Lemma empty_run_result_panics_witness :
  result_of (Reconcile envRunsNothing sampleReq (storeOf newObj))
    = Panic "invalid memory address or nil pointer dereference" /\
  In (EvRunInstances "us-east-1" (runInputOf sampleSpec))
     (trace_of (Reconcile envRunsNothing sampleReq (storeOf newObj))).
Proof.
  pose proof (empty_run_result_panics envRunsNothing sampleReq (storeOf newObj) newObj) as H.
  cbv zeta in H.
  destruct (H eq_refl eq_refl eq_refl eq_refl eq_refl eq_refl eq_refl
              (RunInstancesOutput.Build []) eq_refl eq_refl)
    as (_ & Hr).
  rewrite Hr. split; [reflexivity|]. cbn. auto.
Defined.

(** * Further properties *)

(** ** Text matching *)

Lemma prefix_append sub post : String.prefix sub (sub +:+ post) = true.
Proof.
  induction sub as [|a sub IH]; simpl.
  - destruct post; reflexivity.
  - destruct (Ascii.ascii_dec a a) as [_|Hn]; [exact IH | congruence].
Qed.

Lemma prefix_split sub s : String.prefix sub s = true -> exists post, s = sub +:+ post.
Proof.
  revert sub. induction s as [|b s IH]; intros [|a sub] H; cbn in H.
  - exists EmptyString. reflexivity.
  - discriminate.
  - exists (String b s). reflexivity.
  - destruct (Ascii.ascii_dec a b) as [->|]; [|discriminate].
    destruct (IH sub H) as [post ->]. exists post. reflexivity.
Qed.

Lemma Contains_unfold s sub :
  Contains s sub =
  if String.prefix sub s then true
  else match s with
       | EmptyString => false
       | String _ s' => Contains s' sub
       end.
Proof. destruct s; reflexivity. Qed.

(** [Contains s substr] holds exactly when [substr] occurs in [s]. *)
Lemma Contains_occurs s sub :
  Contains s sub = true <-> exists pre post, s = pre +:+ sub +:+ post.
Proof.
  split.
  - induction s as [|a s IH]; rewrite Contains_unfold;
      destruct (String.prefix sub _) eqn:E; try discriminate.
    + intros _. destruct (prefix_split _ _ E) as [post Hp].
      exists EmptyString, post. exact Hp.
    + intros _. destruct (prefix_split _ _ E) as [post Hp].
      exists EmptyString, post. exact Hp.
    + intros H. destruct (IH H) as (pre & post & ->).
      exists (String a pre), post. reflexivity.
  - intros (pre & post & ->). induction pre as [|a pre IH].
    + change (EmptyString +:+ sub +:+ post) with (sub +:+ post).
      rewrite Contains_unfold, prefix_append. reflexivity.
    + change (String a pre +:+ sub +:+ post) with (String a (pre +:+ sub +:+ post)).
      rewrite Contains_unfold, IH. destruct (String.prefix sub _); reflexivity.
Qed.

(** ** The EC2 helpers *)

Section Helpers.
Variable env : Env.

(** X2.  Whatever [checkEC2InstanceExists] returns, the flag is true only
    together with a record and no error, a false flag comes with no record,
    and an error comes with a false flag. *)
Theorem check_result_shape id o s b i e :
  result_of (checkEC2InstanceExists env id o s) = Ret (b, i, e) ->
  (b = true -> (exists inst, i = Some inst) /\ e = None) /\
  (b = false -> i = None) /\
  (e <> None -> b = false).
Proof.
  unfold_aws. unfold_monad.
  steps; intros H; try discriminate; injection H as <- <- <-;
    repeat split; intros; try discriminate; try congruence; eauto.
Qed.

(** X3.  When the describe call fails, [checkEC2InstanceExists] drops the
    error exactly when its text has InvalidInstanceID.NotFound somewhere in
    it; any other error is returned as it is. *)
Theorem check_classifies_by_text id o s e :
  let region := Ec2InstanceSpec.Region (Ec2Instance.Spec o) in
  LoadDefaultConfig env region = None ->
  DescribeInstances env region (runningInput id) = inr e ->
  ((exists pre post, Error e = pre +:+ "InvalidInstanceID.NotFound" +:+ post) ->
   result_of (checkEC2InstanceExists env id o s) = Ret (false, None, None)) /\
  ((~ exists pre post, Error e = pre +:+ "InvalidInstanceID.NotFound" +:+ post) ->
   result_of (checkEC2InstanceExists env id o s) = Ret (false, None, Some e)).
Proof.
  intros region Hl Hd. unfold_aws. unfold_monad. fold region.
  rewrite Hl. cbn [fst snd app]. rewrite Hd.
  destruct (Contains (Error e) "InvalidInstanceID.NotFound") eqn:E; split; intros H;
    try reflexivity.
  - exfalso. apply H. apply Contains_occurs. exact E.
  - apply Contains_occurs in H. congruence.
Qed.

(** X5.  When [createEc2Instance] returns an error it returns no record, and
    the error is the one of RunInstances, of the wait or of the describe
    call, wrapped with the text of the step that failed. *)
Theorem create_errors_are_wrapped o s info e :
  let region := Ec2InstanceSpec.Region (Ec2Instance.Spec o) in
  result_of (createEc2Instance env o s) = Ret (info, Some e) ->
  info = None /\
  exists e0,
    (e = Errorf "failed to create EC2 instance" e0 /\
     RunInstances env region (runInputOf (Ec2Instance.Spec o)) = inr e0) \/
    (exists id, e = Errorf "failed to wait for instance to be running" e0 /\
                InstanceRunningWaiter_Wait env region (plainInput id) (3 * Minute) = Some e0) \/
    (exists id, e = Errorf "failed to describe EC2 instance" e0 /\
                DescribeInstances env region (plainInput id) = inr e0).
Proof.
  intros region. unfold_aws. unfold_monad. fold region.
  steps; intros H; try discriminate; injection H as <- <-; (split; [reflexivity|]);
    eexists; eauto 6.
Qed.

(** What a record returned by [createEc2Instance] tells about the calls. *)
Lemma createEc2Instance_returns_record o s info e :
  let region := Ec2InstanceSpec.Region (Ec2Instance.Spec o) in
  let input := runInputOf (Ec2Instance.Spec o) in
  result_of (createEc2Instance env o s) = Ret (Some info, e) ->
  e = None /\
  exists out inst rest id d r0 rs instance more dns st,
    RunInstances env region input = inl out /\
    RunInstancesOutput.Instances out = inst :: rest /\
    Instance.InstanceId inst = Some id /\
    InstanceRunningWaiter_Wait env region (plainInput id) (3 * Minute) = None /\
    DescribeInstances env region (plainInput id) = inl d /\
    DescribeInstancesOutput.Reservations d = r0 :: rs /\
    Reservation.Instances r0 = instance :: more /\
    Instance.PublicDnsName instance = Some dns /\
    Instance.State instance = Some st /\
    info = CreatedInstanceInfo.Build id (InstanceState.Name st)
             (helpers.DerefString (Instance.PublicIpAddress instance))
             (helpers.DerefString (Instance.PrivateIpAddress instance))
             dns
             (helpers.DerefString (Instance.PrivateDnsName instance)) /\
    trace_of (createEc2Instance env o s)
    = [EvLoadDefaultConfig region; EvRunInstances region input;
       EvWaitRunning region (plainInput id) (3 * Minute);
       EvDescribeInstances region (plainInput id)].
Proof.
  intros region input. unfold_aws. unfold_monad. fold region input.
  steps; intros H; try discriminate; injection H as <- <-; (split; [reflexivity|]).
  do 11 eexists. repeat (split; [first [eassumption | reflexivity]|]).
  reflexivity.
Qed.

(** X6.  When [createEc2Instance] returns a record it returns no error; the
    run call, the wait for the id it returned and the describe call of that
    id all succeeded, in this order and with no other call to EC2; the public
    DNS name of the described record was present; and the record returned
    has the id of the run call and the state and addresses of the describe
    call. *)
Theorem create_success_shape o s info e :
  let region := Ec2InstanceSpec.Region (Ec2Instance.Spec o) in
  let input := runInputOf (Ec2Instance.Spec o) in
  result_of (createEc2Instance env o s) = Ret (Some info, e) ->
  e = None /\
  exists out inst rest id d r0 rs instance more dns st,
    RunInstances env region input = inl out /\
    RunInstancesOutput.Instances out = inst :: rest /\
    Instance.InstanceId inst = Some id /\
    InstanceRunningWaiter_Wait env region (plainInput id) (3 * Minute) = None /\
    DescribeInstances env region (plainInput id) = inl d /\
    DescribeInstancesOutput.Reservations d = r0 :: rs /\
    Reservation.Instances r0 = instance :: more /\
    Instance.PublicDnsName instance = Some dns /\
    Instance.State instance = Some st /\
    info = CreatedInstanceInfo.Build id (InstanceState.Name st)
             (helpers.DerefString (Instance.PublicIpAddress instance))
             (helpers.DerefString (Instance.PrivateIpAddress instance))
             dns
             (helpers.DerefString (Instance.PrivateDnsName instance)) /\
    trace_of (createEc2Instance env o s)
    = [EvLoadDefaultConfig region; EvRunInstances region input;
       EvWaitRunning region (plainInput id) (3 * Minute);
       EvDescribeInstances region (plainInput id)].
Proof. exact (createEc2Instance_returns_record o s info e). Qed.

(** What a return of [deleteEc2Instance] tells about the calls. *)
Lemma deleteEc2Instance_returns o s b e :
  let region := Ec2InstanceSpec.Region (Ec2Instance.Spec o) in
  let id := Ec2InstanceStatus.InstanceID (Ec2Instance.Status o) in
  result_of (deleteEc2Instance env o s) = Ret (b, e) ->
  (b = true <-> e = None) /\
  store_of (deleteEc2Instance env o s) = s /\
  (b = true ->
   (exists out, TerminateInstances env region (TerminateInstancesInput.Build [id]) = inl out) /\
   InstanceTerminatedWaiter_Wait env region (plainInput id) (5 * Minute) = None /\
   trace_of (deleteEc2Instance env o s)
   = [EvLoadDefaultConfig region;
      EvTerminateInstances region (TerminateInstancesInput.Build [id]);
      EvWaitTerminated region (plainInput id) (5 * Minute)]).
Proof.
  intros region id. unfold_aws. unfold_monad. fold region id.
  steps; intros H; try discriminate; injection H as <- <-;
    repeat split; intros; try discriminate; try congruence; eauto.
Qed.

(** X7.  [deleteEc2Instance] returns true exactly when it returns no error,
    never writes to the API server, and returns true only after the terminate
    call and the five minute wait for the instance of the status both
    succeeded, with no other call to EC2. *)
Theorem delete_result_shape o s b e :
  let region := Ec2InstanceSpec.Region (Ec2Instance.Spec o) in
  let id := Ec2InstanceStatus.InstanceID (Ec2Instance.Status o) in
  result_of (deleteEc2Instance env o s) = Ret (b, e) ->
  (b = true <-> e = None) /\
  store_of (deleteEc2Instance env o s) = s /\
  (b = true ->
   (exists out, TerminateInstances env region (TerminateInstancesInput.Build [id]) = inl out) /\
   InstanceTerminatedWaiter_Wait env region (plainInput id) (5 * Minute) = None /\
   trace_of (deleteEc2Instance env o s)
   = [EvLoadDefaultConfig region;
      EvTerminateInstances region (TerminateInstancesInput.Build [id]);
      EvWaitTerminated region (plainInput id) (5 * Minute)]).
Proof. exact (deleteEc2Instance_returns o s b e). Qed.

End Helpers.

(** ** Passes, one and two *)

Lemma run_bind_ret {A B} (a : A) (f : A -> M B) s : bind (ret a) f s = f a s.
Proof. unfold bind, ret. destruct (f a s) as [[o s1] t1]. reflexivity. Qed.

Section Writes.
Variable env : Env.

Lemma Update_ok o s old :
  update_fault env o = None ->
  s !! Ec2Instance.Name o = Some old ->
  Update env o s
  = (Ret (set_Status o (Ec2Instance.Status old), None),
     storeUpdated s old (set_Status o (Ec2Instance.Status old)), [EvUpdate o]).
Proof. intros Hf Hs. unfold Update. rewrite Hf, Hs. reflexivity. Qed.

Lemma StatusUpdate_ok o s old :
  status_update_fault env o = None ->
  s !! Ec2Instance.Name o = Some old ->
  StatusUpdate env o s
  = (Ret (set_Status old (Ec2Instance.Status o), None),
     <[Ec2Instance.Name o := set_Status old (Ec2Instance.Status o)]> s, [EvStatusUpdate o]).
Proof. intros Hf Hs. unfold StatusUpdate. rewrite Hf, Hs. reflexivity. Qed.

Lemma StatusUpdate_fails o s e :
  status_update_fault env o = Some e ->
  StatusUpdate env o s = (Ret (o, Some e), s, [EvStatusUpdate o]).
Proof. intros Hf. unfold StatusUpdate. rewrite Hf. reflexivity. Qed.

(** X1.  When the load of the resource fails, [Reconcile] makes no other
    call and writes nothing; an error that [errors.IsNotFound] accepts
    (reason NotFound, or code 404 with a reason that is not a known one) ends
    the pass with no error and no retry request, any other error is returned
    as it is. *)
Theorem load_failure_is_terminal req s e :
  let key := Request.NamespacedName req in
  result_of (Get env key s) = Ret (inr e) ->
  Reconcile env req s
  = (Ret (noRequeue, if IsNotFound (knownReasons env) e then None else Some e), s,
     [EvGet key]).
Proof.
  intros key. unfold Reconcile, Get, bind, ret, result_of. fold key.
  steps; intros H; try discriminate; injection H as <-; try reflexivity;
    cbn in *; congruence.
Qed.

End Writes.

Section PassMore.
Variable env : Env.
Variable req : Request.t.
Variable s : gmap string Ec2Instance.t.
Variable obj : Ec2Instance.t.
Hypothesis Hget : get_fault env (Request.NamespacedName req) = None.
Hypothesis Hload : s !! Request.NamespacedName req = Some obj.
Hypothesis Hname : Ec2Instance.Name obj = Request.NamespacedName req.

Let key := Request.NamespacedName req.
Let region := Ec2InstanceSpec.Region (Ec2Instance.Spec obj).
Let id := Ec2InstanceStatus.InstanceID (Ec2Instance.Status obj).
Let obj' := set_Finalizers obj (Ec2Instance.Finalizers obj ++ [finalizerName]).
Let R := Reconcile env req s.

Lemma finalizer_update_ok :
  update_fault env obj' = None ->
  Update env obj' s = (Ret (obj', None), <[key := obj']> s, [EvUpdate obj']).
Proof.
  intros Hu. pose proof Hload as Hs. rewrite <- Hname in Hs.
  rewrite (Update_ok env obj' s obj Hu Hs).
  rewrite storeUpdated_keeps by (cbn; apply appended_not_nil).
  unfold key. rewrite <- Hname. reflexivity.
Qed.

(** A creation pass whose calls all succeed. *)
Lemma create_pass_succeeds_run info :
  IsZero (Ec2Instance.DeletionTimestamp obj) = true ->
  id = EmptyString ->
  update_fault env obj' = None ->
  result_of (createEc2Instance env obj' (<[key := obj']> s)) = Ret (Some info, None) ->
  let final := set_Status obj' (statusOfInfo info) in
  status_update_fault env final = None ->
  result_of R = Ret (requeueAfter (1 * Second), None) /\
  store_of R = <[key := final]> s /\
  trace_of R = EvGet key :: EvUpdate obj'
               :: trace_of (createEc2Instance env obj' (<[key := obj']> s))
               ++ [EvStatusUpdate final].
Proof.
  intros Hz Hid Hu Hc final Hsu. subst R. unfold id in Hid.
  rewrite (Reconcile_loaded env req s obj Hget Hload), Hz, Hid. cbn [negb String.eqb].
  unfold reconcileCreate. fold obj'.
  rewrite run_bind, (finalizer_update_ok Hu). run.
  rewrite run_bind, Hc, createEc2Instance_store. run.
  unfold deref. rewrite run_bind. run. fold final.
  rewrite run_bind.
  assert (Hw : StatusUpdate env final (<[key := obj']> s)
               = (Ret (final, None), <[key := final]> (<[key := obj']> s),
                  [EvStatusUpdate final])).
  { rewrite (StatusUpdate_ok env final _ obj' Hsu).
    - change (Ec2Instance.Name final) with (Ec2Instance.Name obj).
      rewrite Hname. reflexivity.
    - change (Ec2Instance.Name final) with (Ec2Instance.Name obj).
      rewrite Hname. apply lookup_insert_eq. }
  rewrite Hw. run.
  split; [reflexivity|]. split; [apply insert_insert_eq|]. reflexivity.
Qed.

(** X8.  On a creation pass whose finalizer update, [createEc2Instance] and
    status write all succeed, the pass asks for a requeue after one second,
    the stored object is the loaded one with the finalizer appended and the
    status copied from the returned record, and the calls are the load, the
    update, those of [createEc2Instance] and the status write, in this
    order. *)
Theorem create_pass_persists_status info :
  IsZero (Ec2Instance.DeletionTimestamp obj) = true ->
  id = EmptyString ->
  update_fault env obj' = None ->
  result_of (createEc2Instance env obj' (<[key := obj']> s)) = Ret (Some info, None) ->
  let final := set_Status obj' (statusOfInfo info) in
  status_update_fault env final = None ->
  result_of R = Ret (requeueAfter (1 * Second), None) /\
  store_of R = <[key := final]> s /\
  trace_of R = EvGet key :: EvUpdate obj'
               :: trace_of (createEc2Instance env obj' (<[key := obj']> s))
               ++ [EvStatusUpdate final].
Proof. exact (create_pass_succeeds_run info). Qed.

(** C1, as amended.  On a creation pass whose finalizer update,
    [createEc2Instance] and status write all succeed, the stored status has
    the instance id of the run call and the state of the described record;
    its public IP, private IP and private DNS name are those of the record
    where the record has them and the string "<nil>" where it has not; and
    its public DNS name is the one of the record, which has one. *)
Theorem created_status_absent_is_nil_marker info :
  IsZero (Ec2Instance.DeletionTimestamp obj) = true ->
  id = EmptyString ->
  update_fault env obj' = None ->
  result_of (createEc2Instance env obj' (<[key := obj']> s)) = Ret (Some info, None) ->
  status_update_fault env (set_Status obj' (statusOfInfo info)) = None ->
  exists out inst rest created d r0 rs instance more st dns stored,
    RunInstances env region (runInputOf (Ec2Instance.Spec obj)) = inl out /\
    RunInstancesOutput.Instances out = inst :: rest /\
    Instance.InstanceId inst = Some created /\
    DescribeInstances env region (plainInput created) = inl d /\
    DescribeInstancesOutput.Reservations d = r0 :: rs /\
    Reservation.Instances r0 = instance :: more /\
    Instance.State instance = Some st /\
    Instance.PublicDnsName instance = Some dns /\
    store_of R !! key = Some stored /\
    Ec2InstanceStatus.InstanceID (Ec2Instance.Status stored) = created /\
    Ec2InstanceStatus.State (Ec2Instance.Status stored) = InstanceState.Name st /\
    Ec2InstanceStatus.PublicDNS (Ec2Instance.Status stored) = dns /\
    (forall v, Instance.PublicIpAddress instance = Some v ->
               Ec2InstanceStatus.PublicIP (Ec2Instance.Status stored) = v) /\
    (Instance.PublicIpAddress instance = None ->
     Ec2InstanceStatus.PublicIP (Ec2Instance.Status stored) = "<nil>") /\
    (forall v, Instance.PrivateIpAddress instance = Some v ->
               Ec2InstanceStatus.PrivateIP (Ec2Instance.Status stored) = v) /\
    (Instance.PrivateIpAddress instance = None ->
     Ec2InstanceStatus.PrivateIP (Ec2Instance.Status stored) = "<nil>") /\
    (forall v, Instance.PrivateDnsName instance = Some v ->
               Ec2InstanceStatus.PrivateDNS (Ec2Instance.Status stored) = v) /\
    (Instance.PrivateDnsName instance = None ->
     Ec2InstanceStatus.PrivateDNS (Ec2Instance.Status stored) = "<nil>").
Proof.
  intros Hz Hid Hu Hc Hsu.
  destruct (create_pass_succeeds_run info Hz Hid Hu Hc Hsu) as (_ & Hst & _).
  destruct (createEc2Instance_returns_record env obj' _ info None Hc)
    as (_ & out & inst & rest & created & d & r0 & rs & instance & more & dns & st
        & Hrun & Hout & Hcid & _ & Hd & Hres & Hins & Hdns & Hstate & Hinfo & _).
  exists out, inst, rest, created, d, r0, rs, instance, more, st, dns,
    (set_Status obj' (statusOfInfo info)).
  repeat (split; [assumption|]).
  split; [rewrite Hst; apply lookup_insert_eq|].
  subst info. cbn.
  repeat split; intros; try match goal with H : _ = _ |- _ => rewrite H end; reflexivity.
Qed.

(** A creation pass whose status write fails. *)
Lemma create_pass_status_write_fails info e :
  IsZero (Ec2Instance.DeletionTimestamp obj) = true ->
  id = EmptyString ->
  update_fault env obj' = None ->
  result_of (createEc2Instance env obj' (<[key := obj']> s)) = Ret (Some info, None) ->
  let final := set_Status obj' (statusOfInfo info) in
  status_update_fault env final = Some e ->
  result_of R = Ret (noRequeue, Some e) /\
  store_of R = <[key := obj']> s /\
  In (EvRunInstances region (runInputOf (Ec2Instance.Spec obj))) (trace_of R) /\
  Ec2InstanceStatus.InstanceID (Ec2Instance.Status obj') = EmptyString.
Proof.
  intros Hz Hid Hu Hc final Hsu. subst R. unfold id in Hid.
  rewrite (Reconcile_loaded env req s obj Hget Hload), Hz, Hid. cbn [negb String.eqb].
  unfold reconcileCreate. fold obj'.
  rewrite run_bind, (finalizer_update_ok Hu). run.
  rewrite run_bind, Hc, createEc2Instance_store. run.
  unfold deref. rewrite run_bind. run. fold final.
  rewrite run_bind, (StatusUpdate_fails env final _ e Hsu). run.
  split; [reflexivity|]. split; [reflexivity|]. split; [|exact Hid].
  right. right. apply in_or_app. left.
  destruct (createEc2Instance_returns_record env obj' _ info None Hc) as (_ & out & inst & rest & i & d
    & r0 & rs & instance & more & dns & st & _ & _ & _ & _ & _ & _ & _ & _ & _ & _ & Ht).
  rewrite Ht. right. left. reflexivity.
Qed.

(** X9.  On a creation pass whose [createEc2Instance] returned a record, when
    the status write fails the pass returns that error with no retry request;
    RunInstances was called, yet the stored object has the finalizer and
    still no instance id. *)
Theorem status_write_failure_loses_instance info e :
  IsZero (Ec2Instance.DeletionTimestamp obj) = true ->
  id = EmptyString ->
  update_fault env obj' = None ->
  result_of (createEc2Instance env obj' (<[key := obj']> s)) = Ret (Some info, None) ->
  let final := set_Status obj' (statusOfInfo info) in
  status_update_fault env final = Some e ->
  result_of R = Ret (noRequeue, Some e) /\
  store_of R = <[key := obj']> s /\
  In (EvRunInstances region (runInputOf (Ec2Instance.Spec obj))) (trace_of R) /\
  Ec2InstanceStatus.InstanceID (Ec2Instance.Status obj') = EmptyString.
Proof. exact (create_pass_status_write_fails info e). Qed.

(** A creation pass whose finalizer update succeeded and whose configuration
    loads calls RunInstances. *)
Lemma create_pass_calls_run :
  IsZero (Ec2Instance.DeletionTimestamp obj) = true ->
  id = EmptyString ->
  update_fault env obj' = None ->
  LoadDefaultConfig env region = None ->
  In (EvRunInstances region (runInputOf (Ec2Instance.Spec obj))) (trace_of R).
Proof.
  intros Hz Hid Hu Hl. subst R. unfold id in Hid.
  rewrite (Reconcile_loaded env req s obj Hget Hload), Hz, Hid. cbn [negb String.eqb].
  unfold reconcileCreate. fold obj'.
  rewrite run_bind, (finalizer_update_ok Hu). run.
  unfold StatusUpdate. unfold_aws. unfold_monad.
  change (Ec2Instance.Spec obj') with (Ec2Instance.Spec obj). fold region.
  rewrite Hl.
  steps; cbn [In]; auto.
Qed.

(** X11.  On a creation pass whose finalizer update succeeds, however the
    pass ends, the stored object has the finalizer appended to the list it
    had (a list that already has it gets it a second time), with spec and
    deletion timestamp as they were. *)
Theorem create_pass_appends_finalizer :
  IsZero (Ec2Instance.DeletionTimestamp obj) = true ->
  id = EmptyString ->
  update_fault env obj' = None ->
  exists stored,
    store_of R !! key = Some stored /\
    Ec2Instance.Finalizers stored = Ec2Instance.Finalizers obj ++ [finalizerName] /\
    Ec2Instance.Spec stored = Ec2Instance.Spec obj /\
    Ec2Instance.DeletionTimestamp stored = Ec2Instance.DeletionTimestamp obj.
Proof.
  intros Hz Hid Hu. subst R. unfold id in Hid.
  rewrite (Reconcile_loaded env req s obj Hget Hload), Hz, Hid. cbn [negb String.eqb].
  unfold reconcileCreate. fold obj'.
  rewrite run_bind, (finalizer_update_ok Hu). run.
  rewrite run_bind, createEc2Instance_store.
  destruct (result_of (createEc2Instance env obj' (<[key:=obj']> s))) as [[i [e|]]|msg|c];
    run; try (exists obj'; split; [apply lookup_insert_eq | repeat split; reflexivity]).
  unfold deref. destruct i as [info|]; rewrite run_bind; unfold panic; run;
    try (exists obj'; split; [apply lookup_insert_eq | repeat split; reflexivity]).
  rewrite run_bind. unfold StatusUpdate.
  change (Ec2Instance.Name (set_Status obj' (statusOfInfo info))) with (Ec2Instance.Name obj).
  rewrite Hname. fold key. rewrite lookup_insert_eq.
  destruct (status_update_fault env _); run;
    eexists; (split; [apply lookup_insert_eq | repeat split; reflexivity]).
Qed.

(** A verification pass that refreshes an "Unknown" status. *)
Lemma refresh_pass inst st ip :
  IsZero (Ec2Instance.DeletionTimestamp obj) = true ->
  id <> EmptyString ->
  Ec2InstanceStatus.State (Ec2Instance.Status obj) = "Unknown" ->
  result_of (checkEC2InstanceExists env id obj s) = Ret (true, Some inst, None) ->
  Instance.State inst = Some st ->
  Instance.PublicIpAddress inst = Some ip ->
  let status := Ec2Instance.Status obj in
  let refreshed :=
    set_Status obj
      (Ec2InstanceStatus.Build id (InstanceState.Name st) ip
         (Ec2InstanceStatus.PrivateIP status) (Ec2InstanceStatus.PublicDNS status)
         (Ec2InstanceStatus.PrivateDNS status)) in
  result_of R = Ret (noRequeue, None) /\
  store_of R = store_of (StatusUpdate env refreshed s) /\
  trace_of R = EvGet key :: trace_of (checkEC2InstanceExists env id obj s)
               ++ [EvStatusUpdate refreshed].
Proof.
  intros Hz Hid Hst Hc Hs Hip status refreshed. subst R. unfold id in Hid.
  rewrite (Reconcile_loaded env req s obj Hget Hload), Hz. cbn [negb].
  apply String.eqb_neq in Hid. rewrite Hid. cbn [negb].
  unfold reconcileVerify. fold id. rewrite run_bind, Hc, Hst. run.
  rewrite checkEC2InstanceExists_store.
  rewrite String.eqb_refl.
  cbn [deref]. rewrite run_bind_ret, Hs. cbn [deref]. rewrite run_bind_ret, Hip.
  cbn [deref]. rewrite run_bind_ret, run_bind.
  change (set_Status obj (set_State_PublicIP (Ec2Instance.Status obj) (InstanceState.Name st) ip))
    with refreshed.
  destruct (StatusUpdate_returns env refreshed s) as (u & Hu & Ht). rewrite Hu, Ht. run.
  repeat split; reflexivity.
Qed.

(** X12.  On a verification pass over a status in the "Unknown" state, when
    the instance is found running with a state and a public address, the
    pass writes a status whose state and public IP are those of the record
    and whose instance id, private IP and DNS names are the old ones, and it
    returns no error and no retry request whether or not that write
    succeeds. *)
Theorem refresh_unknown_status inst st ip :
  IsZero (Ec2Instance.DeletionTimestamp obj) = true ->
  id <> EmptyString ->
  Ec2InstanceStatus.State (Ec2Instance.Status obj) = "Unknown" ->
  result_of (checkEC2InstanceExists env id obj s) = Ret (true, Some inst, None) ->
  Instance.State inst = Some st ->
  Instance.PublicIpAddress inst = Some ip ->
  let status := Ec2Instance.Status obj in
  let refreshed :=
    set_Status obj
      (Ec2InstanceStatus.Build id (InstanceState.Name st) ip
         (Ec2InstanceStatus.PrivateIP status) (Ec2InstanceStatus.PublicDNS status)
         (Ec2InstanceStatus.PrivateDNS status)) in
  result_of R = Ret (noRequeue, None) /\
  store_of R = store_of (StatusUpdate env refreshed s) /\
  trace_of R = EvGet key :: trace_of (checkEC2InstanceExists env id obj s)
               ++ [EvStatusUpdate refreshed].
Proof. exact (refresh_pass inst st ip). Qed.

(** X14.  On a deletion pass whose termination and update both succeed, the
    pass ends with no error and no retry request; the object written is the
    loaded one without the controller's finalizer, every other finalizer and
    the status kept; the API server removes the resource when no finalizer
    is left, and stores the written object otherwise. *)
Theorem deletion_pass_removes_finalizer :
  IsZero (Ec2Instance.DeletionTimestamp obj) = false ->
  result_of (deleteEc2Instance env obj s) = Ret (true, None) ->
  update_fault env (RemoveFinalizer obj finalizerName) = None ->
  result_of R = Ret (noRequeue, None) /\
  (Ec2Instance.Finalizers (RemoveFinalizer obj finalizerName) = [] ->
   store_of R = delete key s) /\
  (Ec2Instance.Finalizers (RemoveFinalizer obj finalizerName) <> [] ->
   store_of R = <[key := RemoveFinalizer obj finalizerName]> s) /\
  ~ In finalizerName (Ec2Instance.Finalizers (RemoveFinalizer obj finalizerName)) /\
  (forall f, f <> finalizerName ->
     (In f (Ec2Instance.Finalizers (RemoveFinalizer obj finalizerName))
      <-> In f (Ec2Instance.Finalizers obj))) /\
  Ec2Instance.Status (RemoveFinalizer obj finalizerName) = Ec2Instance.Status obj.
Proof.
  intros Hz Hd Hu. subst R.
  rewrite (Reconcile_loaded env req s obj Hget Hload), Hz. cbn [negb].
  unfold reconcileDelete. rewrite run_bind, Hd. run.
  destruct (deleteEc2Instance_returns env obj s true None Hd) as (_ & Hs & _). rewrite Hs.
  rewrite run_bind.
  pose proof Hload as Hl. rewrite <- Hname in Hl.
  rewrite (Update_ok env (RemoveFinalizer obj finalizerName) s obj Hu Hl). run.
  split; [reflexivity|].
  change (set_Status (RemoveFinalizer obj finalizerName) (Ec2Instance.Status obj))
    with (RemoveFinalizer obj finalizerName).
  assert (Hdt : exists t, Ec2Instance.DeletionTimestamp obj = Some t).
  { destruct (Ec2Instance.DeletionTimestamp obj) as [t|]; [eauto | discriminate]. }
  destruct Hdt as [t Hdt].
  split; [|split].
  - intros He. unfold storeUpdated. rewrite Hdt, He.
    change (Ec2Instance.Name (RemoveFinalizer obj finalizerName)) with (Ec2Instance.Name obj).
    rewrite Hname. reflexivity.
  - intros Hne. rewrite storeUpdated_keeps by exact Hne.
    change (Ec2Instance.Name (RemoveFinalizer obj finalizerName)) with (Ec2Instance.Name obj).
    rewrite Hname. reflexivity.
  - cbn [RemoveFinalizer Ec2Instance.Finalizers Ec2Instance.Status].
    split; [|split; [|reflexivity]].
    + rewrite filter_In. intros [_ H]. rewrite String.eqb_refl in H. discriminate.
    + intros f Hf. rewrite filter_In. split; [tauto|].
      intros Hin. split; [exact Hin|]. apply String.eqb_neq in Hf. rewrite Hf. reflexivity.
Qed.

(** X15.  On a deletion pass whose termination succeeded, when the update
    that removes the finalizer fails, the pass returns that error with a
    retry request and the stored objects are what they were, although the
    terminate call was made. *)
Theorem deletion_update_failure_keeps_finalizer o e :
  IsZero (Ec2Instance.DeletionTimestamp obj) = false ->
  result_of (deleteEc2Instance env obj s) = Ret (true, None) ->
  result_of (Update env (RemoveFinalizer obj finalizerName) s) = Ret (o, Some e) ->
  result_of R = Ret (requeueNow, Some e) /\
  store_of R = s /\
  In (EvTerminateInstances region (TerminateInstancesInput.Build [id])) (trace_of R).
Proof.
  intros Hz Hd Hu. subst R.
  rewrite (Reconcile_loaded env req s obj Hget Hload), Hz. cbn [negb].
  unfold reconcileDelete. rewrite run_bind, Hd. run.
  destruct (deleteEc2Instance_returns env obj s true None Hd) as (_ & Hs & Hok).
  destruct (Hok eq_refl) as (_ & _ & Ht). rewrite Hs, Ht.
  rewrite run_bind, Hu. run.
  split; [reflexivity|]. split.
  - revert Hu. unfold Update, result_of, store_of. steps; intros; try discriminate; reflexivity.
  - cbn. auto.
Qed.

(** X16.  On a deletion pass, when the terminate call succeeds with an empty
    list of instances, or with a first entry that has no current state, the
    pass panics right after the terminate call: no wait, no update, the
    stored objects as they were. *)
Theorem terminate_empty_result_panics out :
  IsZero (Ec2Instance.DeletionTimestamp obj) = false ->
  LoadDefaultConfig env region = None ->
  TerminateInstances env region (TerminateInstancesInput.Build [id]) = inl out ->
  (TerminateInstancesOutput.TerminatingInstances out = [] ->
   R = (Panic "index out of range [0] with length 0", s,
        [EvGet key; EvLoadDefaultConfig region;
         EvTerminateInstances region (TerminateInstancesInput.Build [id])])) /\
  (forall t0 rest,
     TerminateInstancesOutput.TerminatingInstances out = t0 :: rest ->
     InstanceStateChange.CurrentState t0 = None ->
     R = (Panic "invalid memory address or nil pointer dereference", s,
          [EvGet key; EvLoadDefaultConfig region;
           EvTerminateInstances region (TerminateInstancesInput.Build [id])])).
Proof.
  intros Hz Hl Ht. subst R.
  rewrite (Reconcile_loaded env req s obj Hget Hload), Hz. cbn [negb].
  unfold reconcileDelete. unfold_aws. unfold_monad. fold region id.
  rewrite Hl. cbn [fst snd app]. rewrite Ht.
  split.
  - intros ->. reflexivity.
  - intros t0 rest -> ->. reflexivity.
Qed.

(** X17.  When the configuration of the region does not load, the process
    exits with code 1 before any call to EC2: on a deletion or verification
    pass with nothing written, on a creation pass after the finalizer was
    stored. *)
Theorem config_failure_exits e :
  LoadDefaultConfig env region = Some e ->
  (IsZero (Ec2Instance.DeletionTimestamp obj) = false \/ id <> EmptyString ->
   R = (Exit 1, s, [EvGet key; EvLoadDefaultConfig region])) /\
  (IsZero (Ec2Instance.DeletionTimestamp obj) = true -> id = EmptyString ->
   update_fault env obj' = None ->
   R = (Exit 1, <[key := obj']> s, [EvGet key; EvUpdate obj'; EvLoadDefaultConfig region])).
Proof.
  intros Hl. subst R. split.
  - intros Hc. rewrite (Reconcile_loaded env req s obj Hget Hload).
    destruct (IsZero (Ec2Instance.DeletionTimestamp obj)) eqn:Hz; cbn [negb].
    + destruct Hc as [Hc|Hid]; [discriminate|].
      unfold id in Hid. apply String.eqb_neq in Hid. rewrite Hid. cbn [negb].
      unfold reconcileVerify. unfold_aws. unfold_monad. fold region. rewrite Hl. reflexivity.
    + unfold reconcileDelete. unfold_aws. unfold_monad. fold region. rewrite Hl. reflexivity.
  - intros Hz Hid Hu. unfold id in Hid.
    rewrite (Reconcile_loaded env req s obj Hget Hload), Hz, Hid. cbn [negb String.eqb].
    unfold reconcileCreate. fold obj'.
    rewrite run_bind, (finalizer_update_ok Hu). run.
    unfold_aws. unfold_monad.
    change (Ec2Instance.Spec obj') with (Ec2Instance.Spec obj). fold region.
    rewrite Hl. reflexivity.
Qed.

(** X4.  On a verification pass, when the describe call returns a first
    reservation with no instance, the pass panics on the index, right after
    the describe call and with nothing written. *)
Theorem check_empty_instances_panics out r0 rs :
  IsZero (Ec2Instance.DeletionTimestamp obj) = true ->
  id <> EmptyString ->
  LoadDefaultConfig env region = None ->
  DescribeInstances env region (runningInput id) = inl out ->
  DescribeInstancesOutput.Reservations out = r0 :: rs ->
  Reservation.Instances r0 = [] ->
  R = (Panic "index out of range [0] with length 0", s,
       [EvGet key; EvLoadDefaultConfig region; EvDescribeInstances region (runningInput id)]).
Proof.
  intros Hz Hid Hl Hd Hr Hi. subst R. unfold id in Hid.
  rewrite (Reconcile_loaded env req s obj Hget Hload), Hz. cbn [negb].
  apply String.eqb_neq in Hid. rewrite Hid. cbn [negb].
  unfold reconcileVerify. unfold_aws. unfold_monad. fold region id.
  rewrite Hl. cbn [fst snd app]. rewrite Hd, Hr, Hi. reflexivity.
Qed.

Lemma mark_unknown_pass :
  IsZero (Ec2Instance.DeletionTimestamp obj) = true ->
  id <> EmptyString ->
  result_of (checkEC2InstanceExists env id obj s) = Ret (false, None, None) ->
  let marked :=
    set_Status obj (set_State_PublicIP (Ec2Instance.Status obj) "Unknown" EmptyString) in
  status_update_fault env marked = None ->
  result_of R = Ret (noRequeue, None) /\ store_of R = <[key := marked]> s.
Proof.
  intros Hz Hid Hc marked Hsu. subst R. unfold id in Hid.
  rewrite (Reconcile_loaded env req s obj Hget Hload), Hz. cbn [negb].
  apply String.eqb_neq in Hid. rewrite Hid. cbn [negb].
  unfold reconcileVerify. fold id marked. rewrite run_bind, Hc. run.
  rewrite checkEC2InstanceExists_store, run_bind.
  pose proof Hload as Hl. rewrite <- Hname in Hl.
  rewrite (StatusUpdate_ok env marked s obj Hsu Hl). run.
  split; [reflexivity|].
  change (Ec2Instance.Name marked) with (Ec2Instance.Name obj). rewrite Hname.
  destruct obj; reflexivity.
Qed.

(** X18.  A pass writes to no object but the one it loaded: under every
    other name the stored object is what it was. *)
Theorem reconcile_frame k :
  k <> Ec2Instance.Name obj -> store_of R !! k = s !! k.
Proof.
  intros Hk. subst R.
  rewrite (Reconcile_loaded env req s obj Hget Hload).
  unfold reconcileDelete, reconcileVerify, reconcileCreate, Update, StatusUpdate.
  unfold_aws. unfold_monad.
  steps; cbn [Ec2Instance.Name set_Finalizers set_Status RemoveFinalizer] in *;
    rewrite ?lookup_insert_ne by congruence;
    rewrite ?storeUpdated_other by (cbn [Ec2Instance.Name]; congruence); reflexivity.
Qed.

(** X19.  A deletion pass never calls RunInstances, the running waiter or
    DescribeInstances and never writes a status; a pass over a resource that
    is not being deleted never calls TerminateInstances or the terminated
    waiter. *)
Theorem branch_call_discipline :
  (IsZero (Ec2Instance.DeletionTimestamp obj) = false ->
   forall x, In x (trace_of R) ->
     match x with
     | EvRunInstances _ _ | EvWaitRunning _ _ _ | EvDescribeInstances _ _
     | EvStatusUpdate _ => False
     | _ => True
     end) /\
  (IsZero (Ec2Instance.DeletionTimestamp obj) = true ->
   forall x, In x (trace_of R) ->
     match x with
     | EvTerminateInstances _ _ | EvWaitTerminated _ _ _ => False
     | _ => True
     end).
Proof.
  subst R. rewrite (Reconcile_loaded env req s obj Hget Hload).
  split; intros Hz; rewrite Hz; cbn [negb].
  - unfold reconcileDelete, Update. unfold_aws. unfold_monad.
    steps; intros x Hin; cbn [In] in Hin;
      repeat (destruct Hin as [<-|Hin]; [exact I|]); destruct Hin.
  - unfold reconcileVerify, reconcileCreate, Update, StatusUpdate. unfold_aws. unfold_monad.
    steps; intros x Hin; cbn [In] in Hin;
      repeat (destruct Hin as [<-|Hin]; [exact I|]); destruct Hin.
Qed.

End PassMore.

(** X10.  With the same answers of the environment, the pass after a
    creation whose status write failed is a creation pass again and calls
    RunInstances a second time. *)
Theorem lost_instance_is_created_again env req s obj info e :
  let key := Request.NamespacedName req in
  let region := Ec2InstanceSpec.Region (Ec2Instance.Spec obj) in
  let obj' := set_Finalizers obj (Ec2Instance.Finalizers obj ++ [finalizerName]) in
  let obj'' := set_Finalizers obj' (Ec2Instance.Finalizers obj' ++ [finalizerName]) in
  get_fault env key = None ->
  s !! key = Some obj ->
  Ec2Instance.Name obj = key ->
  IsZero (Ec2Instance.DeletionTimestamp obj) = true ->
  Ec2InstanceStatus.InstanceID (Ec2Instance.Status obj) = EmptyString ->
  update_fault env obj' = None ->
  result_of (createEc2Instance env obj' (<[key := obj']> s)) = Ret (Some info, None) ->
  status_update_fault env (set_Status obj' (statusOfInfo info)) = Some e ->
  update_fault env obj'' = None ->
  let R1 := Reconcile env req s in
  let R2 := Reconcile env req (store_of R1) in
  result_of R1 = Ret (noRequeue, Some e) /\
  In (EvRunInstances region (runInputOf (Ec2Instance.Spec obj))) (trace_of R1) /\
  In (EvRunInstances region (runInputOf (Ec2Instance.Spec obj))) (trace_of R2).
Proof.
  intros key region obj' obj'' Hget Hload Hname Hz Hid Hu Hc Hsu Hu2 R1 R2.
  destruct (create_pass_status_write_fails env req s obj Hget Hload Hname info e
              Hz Hid Hu Hc Hsu) as (Hr & Hs & Hin & _).
  split; [exact Hr|]. split; [exact Hin|].
  subst R2 R1. fold key obj' in Hs. rewrite Hs.
  assert (Hl : LoadDefaultConfig env region = None).
  { destruct (LoadDefaultConfig env region) eqn:E; [|reflexivity].
    exfalso. revert Hc. unfold_aws. unfold_monad.
    change (Ec2Instance.Spec obj') with (Ec2Instance.Spec obj). fold region.
    rewrite E. discriminate. }
  apply (create_pass_calls_run env req (<[key := obj']> s) obj' Hget
           (lookup_insert_eq _ _ _) Hname Hz Hid Hu2 Hl).
Qed.


(** X13.  A pass that finds the instance not running, followed by a pass
    that finds it running again, leaves a stored status with the old
    instance id, private IP and DNS names and with the state and public IP of
    the record; neither pass asks for a retry. *)
Theorem unknown_then_refresh env1 env2 req s obj inst st ip :
  let key := Request.NamespacedName req in
  let id := Ec2InstanceStatus.InstanceID (Ec2Instance.Status obj) in
  let status := Ec2Instance.Status obj in
  let marked := set_Status obj (set_State_PublicIP status "Unknown" EmptyString) in
  let refreshed :=
    set_Status obj
      (Ec2InstanceStatus.Build id (InstanceState.Name st) ip
         (Ec2InstanceStatus.PrivateIP status) (Ec2InstanceStatus.PublicDNS status)
         (Ec2InstanceStatus.PrivateDNS status)) in
  get_fault env1 key = None ->
  get_fault env2 key = None ->
  s !! key = Some obj ->
  Ec2Instance.Name obj = key ->
  IsZero (Ec2Instance.DeletionTimestamp obj) = true ->
  id <> EmptyString ->
  result_of (checkEC2InstanceExists env1 id obj s) = Ret (false, None, None) ->
  status_update_fault env1 marked = None ->
  result_of (checkEC2InstanceExists env2 id marked (<[key := marked]> s))
    = Ret (true, Some inst, None) ->
  Instance.State inst = Some st ->
  Instance.PublicIpAddress inst = Some ip ->
  status_update_fault env2 refreshed = None ->
  let R1 := Reconcile env1 req s in
  let R2 := Reconcile env2 req (store_of R1) in
  result_of R1 = Ret (noRequeue, None) /\
  result_of R2 = Ret (noRequeue, None) /\
  store_of R2 = <[key := refreshed]> s.
Proof.
  intros key id status marked refreshed Hg1 Hg2 Hload Hname Hz Hid Hc1 Hs1 Hc2 Hst Hip Hs2
    R1 R2.
  destruct (mark_unknown_pass env1 req s obj Hg1 Hload Hname Hz Hid Hc1 Hs1) as (Hr1 & Hst1).
  split; [exact Hr1|].
  subst R2 R1. fold key marked in Hst1. rewrite Hst1.
  destruct (refresh_pass env2 req (<[key := marked]> s) marked Hg2
              (lookup_insert_eq _ _ _) inst st ip Hz Hid eq_refl Hc2 Hst Hip)
    as (Hr2 & Hst2 & _).
  split; [exact Hr2|].
  change (store_of (Reconcile env2 req (<[key := marked]> s)) = <[key := refreshed]> s).
  rewrite Hst2.
  change (set_Status marked _) with refreshed.
  rewrite (StatusUpdate_ok env2 refreshed (<[key := marked]> s) marked Hs2).
  - rewrite store_of_run.
    change (Ec2Instance.Name refreshed) with (Ec2Instance.Name obj). rewrite Hname.
    fold key. rewrite insert_insert_eq. reflexivity.
  - change (Ec2Instance.Name refreshed) with (Ec2Instance.Name obj). rewrite Hname.
    apply lookup_insert_eq.
Qed.

(** ** The further properties at sample worlds *)

Lemma load_failure_is_terminal_witness :
  Reconcile (withGetFault goneError envFound) sampleReq (storeOf newObj)
  = (Ret (noRequeue, None), storeOf newObj, [EvGet sampleKey]).
Proof.
  exact (load_failure_is_terminal (withGetFault goneError envFound) sampleReq (storeOf newObj)
           goneError eq_refl).
Defined.

Lemma created_status_absent_is_nil_marker_witness :
  Ec2Instance.Status <$>
    (store_of (Reconcile envCreates123dns sampleReq (storeOf newObj)) !! sampleKey)
  = Some (Ec2InstanceStatus.Build "i-123" "running" "1.2.3.4" "10.0.0.5"
            "ec2-1-2-3-4.compute-1.amazonaws.com" "<nil>").
Proof.
  destruct (created_status_absent_is_nil_marker envCreates123dns sampleReq (storeOf newObj)
              newObj eq_refl eq_refl eq_refl
              (CreatedInstanceInfo.Build "i-123" "running" "1.2.3.4" "10.0.0.5"
                 "ec2-1-2-3-4.compute-1.amazonaws.com" "<nil>")
              eq_refl eq_refl eq_refl eq_refl eq_refl)
    as (out & inst & rest & created & d & r0 & rs & instance & more & st & dns & stored
        & Hrun & Hout & Hcid & Hd & Hres & Hins & Hstate & Hdns & Hst & Hi & Hs & Hpd
        & Hpub & _ & Hpriv & _ & _ & Hnil).
  injection Hrun as <-. injection Hout as <- <-. injection Hcid as <-.
  injection Hd as <-. injection Hres as <- <-. injection Hins as <- <-.
  injection Hstate as <-. injection Hdns as <-.
  specialize (Hpub _ eq_refl). specialize (Hpriv _ eq_refl). specialize (Hnil eq_refl).
  change (Request.NamespacedName sampleReq) with sampleKey in Hst.
  rewrite Hst. destruct stored as [n dt f sp [a b c e g h]].
  cbn in Hi, Hs, Hpd, Hpub, Hpriv, Hnil |- *. subst. reflexivity.
Defined.

Lemma check_result_shape_witness :
  (exists inst, Some recordFull = Some inst) /\ @None error = None.
Proof.
  exact (proj1 (check_result_shape envFound "i-999" (liveObj "running")
                  (storeOf (liveObj "running")) true (Some recordFull) None eq_refl) eq_refl).
Defined.

Lemma check_classifies_by_text_witness :
  result_of (checkEC2InstanceExists envNotFound "i-999" (liveObj "running")
               (storeOf (liveObj "running")))
  = Ret (false, None, None).
Proof.
  apply (proj1 (check_classifies_by_text envNotFound "i-999" (liveObj "running")
                  (storeOf (liveObj "running")) notFoundError eq_refl eq_refl)).
  exists "api error ", ": The instance ID 'i-999' does not exist". reflexivity.
Defined.

Lemma check_empty_instances_panics_witness :
  result_of (Reconcile envNoInstances sampleReq (storeOf (liveObj "running")))
  = Panic "index out of range [0] with length 0".
Proof.
  rewrite (check_empty_instances_panics envNoInstances sampleReq (storeOf (liveObj "running"))
             (liveObj "running") eq_refl eq_refl
             (DescribeInstancesOutput.Build [Reservation.Build []]) (Reservation.Build []) []
             eq_refl ltac:(discriminate) eq_refl eq_refl eq_refl eq_refl).
  reflexivity.
Defined.

Lemma create_errors_are_wrapped_witness :
  result_of (createEc2Instance envRunFails newObj (storeOf newObj))
  = Ret (None, Some (Errorf "failed to create EC2 instance" timeoutError)) /\
  @None CreatedInstanceInfo.t = None.
Proof.
  split; [reflexivity|].
  exact (proj1 (create_errors_are_wrapped envRunFails newObj (storeOf newObj) None
                  (Errorf "failed to create EC2 instance" timeoutError) eq_refl)).
Defined.

Lemma create_success_shape_witness :
  result_of (createEc2Instance envCreates newObj (storeOf newObj)) = Ret (Some infoFull, None) /\
  @None error = None.
Proof.
  split; [reflexivity|].
  exact (proj1 (create_success_shape envCreates newObj (storeOf newObj) infoFull None eq_refl)).
Defined.

Lemma delete_result_shape_witness :
  store_of (deleteEc2Instance envFound dyingObj (storeOf dyingObj)) = storeOf dyingObj.
Proof.
  exact (proj1 (proj2 (delete_result_shape envFound dyingObj (storeOf dyingObj) true None
                         eq_refl))).
Defined.

Lemma create_pass_persists_status_witness :
  result_of (Reconcile envCreates sampleReq (storeOf newObj))
  = Ret (requeueAfter (1 * Second), None).
Proof.
  exact (proj1 (create_pass_persists_status envCreates sampleReq (storeOf newObj) newObj
                  eq_refl eq_refl eq_refl infoFull eq_refl eq_refl eq_refl eq_refl eq_refl)).
Defined.

Lemma status_write_failure_loses_instance_witness :
  result_of (Reconcile envStatusFails sampleReq (storeOf newObj))
  = Ret (noRequeue, Some conflictError).
Proof.
  exact (proj1 (status_write_failure_loses_instance envStatusFails sampleReq (storeOf newObj)
                  newObj eq_refl eq_refl eq_refl infoFull conflictError
                  eq_refl eq_refl eq_refl eq_refl eq_refl)).
Defined.

Lemma lost_instance_is_created_again_witness :
  In (EvRunInstances "us-east-1" (runInputOf sampleSpec))
     (trace_of (Reconcile envStatusFails sampleReq
                  (store_of (Reconcile envStatusFails sampleReq (storeOf newObj))))).
Proof.
  exact (proj2 (proj2 (lost_instance_is_created_again envStatusFails sampleReq (storeOf newObj)
                         newObj infoFull conflictError
                         eq_refl eq_refl eq_refl eq_refl eq_refl eq_refl eq_refl eq_refl
                         eq_refl))).
Defined.

Lemma create_pass_appends_finalizer_witness :
  exists stored,
    store_of (Reconcile envRunFails sampleReq (storeOf retryObj)) !! sampleKey = Some stored /\
    Ec2Instance.Finalizers stored = [finalizerName; finalizerName].
Proof.
  destruct (create_pass_appends_finalizer envRunFails sampleReq (storeOf retryObj) retryObj
              eq_refl eq_refl eq_refl eq_refl eq_refl eq_refl) as (stored & H1 & H2 & _).
  exists stored. split; [exact H1 | exact H2].
Defined.

Lemma refresh_unknown_status_witness :
  result_of (Reconcile envFound sampleReq (storeOf (liveObj "Unknown")))
  = Ret (noRequeue, None).
Proof.
  exact (proj1 (refresh_unknown_status envFound sampleReq (storeOf (liveObj "Unknown"))
                  (liveObj "Unknown") eq_refl eq_refl recordFull running "1.2.3.4"
                  eq_refl ltac:(discriminate) eq_refl eq_refl eq_refl eq_refl)).
Defined.

Lemma unknown_then_refresh_witness :
  Ec2Instance.Status <$>
    (store_of (Reconcile envFound sampleReq (store_of notFoundPass)) !! sampleKey)
  = Some (Ec2InstanceStatus.Build "i-999" "running" "1.2.3.4" "10.0.0.5" "ec2-1-2-3-4"
            "ip-10-0-0-5").
Proof.
  destruct (unknown_then_refresh envNotFound envFound sampleReq (storeOf (liveObj "running"))
              (liveObj "running") recordFull running "1.2.3.4"
              eq_refl eq_refl eq_refl eq_refl eq_refl ltac:(discriminate)
              eq_refl eq_refl eq_refl eq_refl eq_refl eq_refl) as (_ & _ & Hs).
  unfold notFoundPass. rewrite Hs. reflexivity.
Defined.

Lemma deletion_pass_removes_finalizer_witness :
  result_of (Reconcile envFound sampleReq (storeOf dyingObj)) = Ret (noRequeue, None) /\
  store_of (Reconcile envFound sampleReq (storeOf dyingObj)) !! sampleKey = None.
Proof.
  destruct (deletion_pass_removes_finalizer envFound sampleReq (storeOf dyingObj) dyingObj
              eq_refl eq_refl eq_refl eq_refl eq_refl eq_refl) as (Hr & Hs & _).
  split; [exact Hr|]. rewrite (Hs eq_refl). apply lookup_delete_eq.
Defined.

Lemma deletion_update_failure_keeps_finalizer_witness :
  result_of (Reconcile envConflict sampleReq (storeOf dyingObj))
  = Ret (requeueNow, Some conflictError) /\
  store_of (Reconcile envConflict sampleReq (storeOf dyingObj)) = storeOf dyingObj.
Proof.
  destruct (deletion_update_failure_keeps_finalizer envConflict sampleReq (storeOf dyingObj)
              dyingObj eq_refl eq_refl (RemoveFinalizer dyingObj finalizerName) conflictError
              eq_refl eq_refl eq_refl) as (Hr & Hs & _).
  split; [exact Hr | exact Hs].
Defined.

Lemma terminate_empty_result_panics_witness :
  result_of (Reconcile envTerminatesNothing sampleReq (storeOf dyingObj))
  = Panic "index out of range [0] with length 0".
Proof.
  rewrite (proj1 (terminate_empty_result_panics envTerminatesNothing sampleReq
                    (storeOf dyingObj) dyingObj eq_refl eq_refl
                    (TerminateInstancesOutput.Build []) eq_refl eq_refl eq_refl) eq_refl).
  reflexivity.
Defined.

Lemma config_failure_exits_witness :
  result_of (Reconcile envNoConfig sampleReq (storeOf (liveObj "running"))) = Exit 1 /\
  store_of (Reconcile envNoConfig sampleReq (storeOf (liveObj "running")))
  = storeOf (liveObj "running").
Proof.
  pose proof (config_failure_exits envNoConfig sampleReq (storeOf (liveObj "running"))
                (liveObj "running")) as H.
  specialize (H eq_refl eq_refl eq_refl configError eq_refl).
  destruct H as [H _].
  assert (Hne : Ec2InstanceStatus.InstanceID (Ec2Instance.Status (liveObj "running"))
                <> EmptyString) by discriminate.
  rewrite (H (or_intror Hne)).
  split; reflexivity.
Defined.

Lemma reconcile_frame_witness :
  store_of (Reconcile envCreates sampleReq storeTwo) !! otherKey = Some otherObj.
Proof.
  rewrite (reconcile_frame envCreates sampleReq storeTwo newObj eq_refl eq_refl otherKey
             ltac:(discriminate)).
  reflexivity.
Defined.

Lemma branch_call_discipline_witness :
  IsZero (Ec2Instance.DeletionTimestamp dyingObj) = false /\
  ~ In (EvStatusUpdate dyingObj)
       (trace_of (Reconcile envFound sampleReq (storeOf dyingObj))).
Proof.
  split; [reflexivity|]. intros Hin.
  exact (proj1 (branch_call_discipline envFound sampleReq (storeOf dyingObj) dyingObj
                  eq_refl eq_refl) eq_refl _ Hin).
Defined.
